(** * trivia_slack: the Slack adapter of the trivia engine

    A shallow embedding of [src/trivia_slack.py] (class [SlackTrivia]) and the
    properties of the event router, the question formatter, the retrying send
    and the display-name cache. *)

From Stdlib Require Import ZArith String Ascii List Lia.
From stdpp Require Import base option countable gmap strings fin_maps.

Local Open Scope string_scope.
Local Open Scope Z_scope.

(** ** Python values

    The dictionaries handled by the adapter (events, question records, the
    configuration, user profiles) hold JSON data.  [atom] is a scalar, [pyval]
    a scalar or a dictionary of scalars (the [winning_user] sub-record). *)

Inductive atom : Type :=
| ANone
| AInt (z : Z)
| AStr (s : string).

#[global] Instance atom_eq_dec : EqDecision atom.
Proof. solve_decision. Defined.

Definition atom_to_sum (a : atom) : unit + (Z + string) :=
  match a with
  | ANone => inl tt
  | AInt z => inr (inl z)
  | AStr s => inr (inr s)
  end.

Definition atom_of_sum (x : unit + (Z + string)) : atom :=
  match x with
  | inl _ => ANone
  | inr (inl z) => AInt z
  | inr (inr s) => AStr s
  end.

#[global] Instance atom_countable : Countable atom.
Proof.
  apply (inj_countable' atom_to_sum atom_of_sum).
  intros []; reflexivity.
Defined.

Inductive pyval : Type :=
| Atom (a : atom)
| Dict (d : gmap string atom).

#[global] Instance pyval_eq_dec : EqDecision pyval.
Proof. solve_decision. Defined.

Coercion Atom : atom >-> pyval.

(** Truth value of an object, as tested by [if x:] and [not x]. *)
Definition atom_truthy (a : atom) : bool :=
  match a with
  | ANone => false
  | AInt z => negb (z =? 0)
  | AStr s => negb (String.eqb s "")
  end.

Definition truthy (v : pyval) : bool :=
  match v with
  | Atom a => atom_truthy a
  | Dict d => negb (bool_decide (d = ∅))
  end.

(** ** Rendering of values inside f-strings *)

(** Decimal digits of [p] in front of [acc]; [fuel] bounds the number of
    digits, and the number of bits of [p] is enough. *)
Fixpoint pos_digits (fuel : nat) (p : positive) (acc : list ascii) : list ascii :=
  match fuel with
  | O => acc
  | S fuel' =>
      let d := ascii_of_nat (48 + Z.to_nat (Z.pos p mod 10)) in
      match Z.pos p / 10 with
      | Z.pos q => pos_digits fuel' q (d :: acc)
      | _ => d :: acc
      end
  end.

(** Decimal digits of a non-negative integer, most significant first. *)
Definition nat_digits (z : Z) : list ascii :=
  match z with
  | Z.pos p => pos_digits (Pos.size_nat p) p []
  | _ => ["0"%char]
  end.

Definition str_int (z : Z) : string :=
  if z <? 0 then String "-" (string_of_list_ascii (nat_digits (- z)))
  else string_of_list_ascii (nat_digits z).

(** Groups of three digits separated by commas, counted from the right. *)
Fixpoint group3 (rev_digits : list ascii) : list ascii :=
  match rev_digits with
  | a :: b :: c :: ((_ :: _) as rest) => a :: b :: c :: ","%char :: group3 rest
  | l => l
  end.

Definition thousands (z : Z) : string :=
  let body := string_of_list_ascii (rev (group3 (rev (nat_digits (Z.abs z))))) in
  if z <? 0 then String "-" body else body.

(** [str(x)] for a scalar. *)
Definition str_atom (a : atom) : string :=
  match a with
  | ANone => "None"
  | AInt z => str_int z
  | AStr s => s
  end.

(** ** Exceptions, platform calls and observable effects *)

Inductive exn : Type :=
| KeyError (key : string)
| TypeError
| ValueError
| AttributeError
| SlackApiError
| OtherException (what : string)
| KeyboardInterrupt.

(** [except Exception] catches everything but the exceptions that derive
    from [BaseException] only. *)
Definition is_Exception (e : exn) : bool :=
  match e with
  | KeyboardInterrupt => false
  | _ => true
  end.

Definition is_SlackApiError (e : exn) : bool :=
  match e with
  | SlackApiError => true
  | _ => false
  end.

(** Requests made through [self._client.web_client]. *)
Inductive call : Type :=
| UsersInfo (user : atom)
| ChatPostMessage (message_args : gmap string pyval)
| ReactionsAdd (channel name timestamp : pyval)
| ChatPostEphemeral (message_args : gmap string pyval).

Inductive log_record : Type :=
| LogException (ex : exn)
| LogError (msg : string)
| LogInfo (msg : string).

Inductive effect : Type :=
| Call (c : call)
| Log (r : log_record)
| Sleep (seconds : Z)
| Print (value : gmap string pyval)
| EngineHandleMessage (uid text : pyval) (message_payload : gmap string pyval).

#[global] Instance exn_eq_dec : EqDecision exn.
Proof. solve_decision. Defined.
#[global] Instance call_eq_dec : EqDecision call.
Proof. solve_decision. Defined.
#[global] Instance log_record_eq_dec : EqDecision log_record.
Proof. solve_decision. Defined.
#[global] Instance effect_eq_dec : EqDecision effect.
Proof. solve_decision. Defined.

(** The chat platform: the answer to each request may depend on everything
    that happened before it. *)
Record platform : Type := {
  users_info : list effect → atom → exn + gmap string atom;
  chat_postMessage : list effect → gmap string pyval → exn + pyval;
  reactions_add : list effect → pyval → pyval → pyval → exn + pyval;
  chat_postEphemeral : list effect → gmap string pyval → exn + pyval
}.

(** [config.json], as far as the adapter reads it. *)
Record config : Type := {
  trivia_channel : pyval;
  admin_uid : pyval;
  max_tries : Z;
  bot : gmap string pyval
}.

(** The mutable state: the name cache of the adapter, the readings that
    [time.time()] will return, and the effects performed so far. *)
Record world : Type := {
  names_cache : gmap atom (atom * Z);
  clock : nat → Z;
  ticks : nat;
  trace : list effect
}.

Definition set_cache (c : gmap atom (atom * Z)) (w : world) : world :=
  {| names_cache := c; clock := clock w; ticks := ticks w; trace := trace w |}.
Definition set_ticks (n : nat) (w : world) : world :=
  {| names_cache := names_cache w; clock := clock w; ticks := n; trace := trace w |}.
Definition add_effect (e : effect) (w : world) : world :=
  {| names_cache := names_cache w; clock := clock w; ticks := ticks w;
     trace := trace w ++ [e] |}.

(** ** A state and exception monad *)

Definition M (A : Type) : Type := world → (exn + A) * world.

#[global] Instance M_ret : MRet M := λ A x w, (inr x, w).
#[global] Instance M_bind : MBind M := λ A B f m w,
  match m w with
  | (inr x, w') => f x w'
  | (inl e, w') => (inl e, w')
  end.

Definition raise {A} (e : exn) : M A := λ w, (inl e, w).

(** [try: body except <class>: handler], where [catches] tells whether the
    exception belongs to the class. *)
Definition try_except {A} (body : M A) (catches : exn → bool) (handler : exn → M A) : M A :=
  λ w, match body w with
       | (inl e, w') => if catches e then handler e w' else (inl e, w')
       | r => r
       end.

Definition emit (e : effect) : M unit := λ w, (inr tt, add_effect e w).

Definition time_time : M Z :=
  λ w, (inr (clock w (ticks w)), set_ticks (S (ticks w)) w).

Definition time_sleep (seconds : Z) : M unit := emit (Sleep seconds).

Definition logging_exception (ex : exn) : M unit := emit (Log (LogException ex)).
Definition logging_error (msg : string) : M unit := emit (Log (LogError msg)).
Definition logging_info (msg : string) : M unit := emit (Log (LogInfo msg)).

(** [d[key]] *)
Definition subscript {V} (d : gmap string V) (key : string) : M V :=
  match d !! key with
  | Some v => mret v
  | None => raise (KeyError key)
  end.

(** Number of requests of a kind among the effects. *)
Definition is_lookup (e : effect) : bool :=
  match e with Call (UsersInfo _) => true | _ => false end.
Definition is_post (e : effect) : bool :=
  match e with Call (ChatPostMessage _) => true | _ => false end.

Definition lookups (t : list effect) : nat := length (List.filter is_lookup t).
Definition posts (t : list effect) : nat := length (List.filter is_post t).

(** ** The adapter *)

Definition NAME_CACHE_SECONDS : Z := 12 * 60 * 60.

Definition newline : string := String "010"%char EmptyString.

Section SlackTrivia.

(** [self._config] and [self._client]. *)
Variable cfg : config.
Variable slack : platform.
(** [repr] of a dictionary, used when an f-string renders one. *)
Variable dict_repr : gmap string atom → string.

Definition web_users_info (uid : atom) : M (gmap string atom) :=
  λ w, (users_info slack (trace w) uid, add_effect (Call (UsersInfo uid)) w).

Definition web_chat_postMessage (message_args : gmap string pyval) : M pyval :=
  λ w, (chat_postMessage slack (trace w) message_args,
        add_effect (Call (ChatPostMessage message_args)) w).

Definition web_reactions_add (channel name timestamp : pyval) : M pyval :=
  λ w, (reactions_add slack (trace w) channel name timestamp,
        add_effect (Call (ReactionsAdd channel name timestamp)) w).

Definition web_chat_postEphemeral (message_args : gmap string pyval) : M pyval :=
  λ w, (chat_postEphemeral slack (trace w) message_args,
        add_effect (Call (ChatPostEphemeral message_args)) w).

(** The engine is an opaque collaborator: a call of its [handle_message]
    is recorded among the effects. *)
Definition trivia_handle_message (uid text : pyval)
    (message_payload : gmap string pyval) : M unit :=
  emit (EngineHandleMessage uid text message_payload).

(** *** [get_display_name] *)

Definition name_priority : list string :=
  ["display_name_normalized"; "real_name_normalized"].

(** The [for name_type in name_priority] loop; [ANone] when it falls
    through without a [break]. *)
Fixpoint pick_name (user : gmap string atom) (priority : list string) : atom :=
  match priority with
  | [] => ANone
  | name_type :: rest =>
      match user !! name_type with
      | Some a =>
          if bool_decide (a ≠ ANone) && bool_decide (a ≠ AStr "")
          then a
          else pick_name user rest
      | None => pick_name user rest
      end
  end.

(** [self._names_cache.get(uid, ('???', 0))] *)
Definition cache_get (uid : atom) : M (atom * Z) :=
  λ w, (inr (default (AStr "???", 0) (names_cache w !! uid)), w).

(** [self._names_cache[uid] = entry] *)
Definition cache_set (uid : atom) (entry : atom * Z) : M unit :=
  λ w, (inr tt, set_cache (<[uid := entry]> (names_cache w)) w).

Definition get_display_name (uid : atom) : M atom :=
  '(name, name_time) ← cache_get uid;
  now ← time_time;
  name ← (if now >? name_time + NAME_CACHE_SECONDS then
            logging_info ("Getting username for uid: " ++ str_atom uid);;
            try_except
              (user ← web_users_info uid;
               mret (pick_name user name_priority))
              is_SlackApiError
              (λ _, mret ANone)
          else mret name);
  let name := if atom_truthy name then name else AStr "(no user)" in
  stamp ← time_time;
  cache_set uid (name, stamp);;
  mret name.

(** *** [format_question] *)

Definition str_val (v : pyval) : string :=
  match v with
  | Atom a => str_atom a
  | Dict d => dict_repr d
  end.

(** The format specification [:,]. *)
Definition format_thousands (a : atom) : M string :=
  match a with
  | AInt z => mret (thousands z)
  | AStr _ => raise ValueError
  | ANone => raise TypeError
  end.

Definition format_question (question : gmap string pyval) : M string :=
  let user := default (Atom ANone) (question !! "winning_user") in
  line1 ← (if truthy user then
             match user with
             | Dict u =>
                 username ← get_display_name (default (AStr "") (u !! "uid"));
                 winning_answer ← subscript question "winning_answer";
                 score ← subscript u "score";
                 score ← format_thousands score;
                 rank ← subscript u "rank";
                 mret ("Correct: *" ++ str_val winning_answer ++ "* "
                       ++ "-- " ++ str_atom username ++ " (today: " ++ score
                       ++ " #" ++ str_atom rank ++ ")")
             | Atom _ => raise AttributeError
             end
           else
             winning_answer ← subscript question "winning_answer";
             mret ("Answer: *" ++ str_val winning_answer ++ "*"));
  year ← subscript question "year";
  category ← subscript question "category";
  value ← subscript question "value";
  let line2 := "(" ++ str_val year ++ ") *" ++ str_val category ++ "* "
               ++ "for *" ++ str_val value ++ "*" in
  comment ← subscript question "comment";
  let line2 := if truthy comment
               then line2 ++ " _" ++ str_val comment ++ "_"
               else line2 in
  text ← subscript question "question";
  let line3 := ">" ++ str_val text in
  mret (line1 ++ newline ++ line2 ++ newline ++ line3).

(** *** [post_message] *)

(** The [while] loop of [post_message], entered with the current value of
    [tries].  [Some r] is the value returned by the function ([Atom ANone]
    when the loop ends without a [return]); [None] means that [fuel]
    iterations did not finish the loop. *)
Fixpoint post_message_loop (fuel : nat) (tries : Z)
    (message_args : gmap string pyval) : M (option pyval) :=
  match fuel with
  | O => mret None
  | S fuel' =>
      if tries <? Z.max (max_tries cfg) 1 then
        let tries := tries + 1 in
        try_except
          (r ← web_chat_postMessage message_args; mret (Some r))
          is_Exception
          (λ ex,
             logging_exception ex;;
             logging_error ("Slack send error. Try # " ++ str_int tries);;
             time_sleep 1;;
             post_message_loop fuel' tries message_args)
      else mret (Some (Atom ANone))
  end.

Definition post_message_fuel : nat := S (Z.to_nat (Z.max (max_tries cfg) 1)).

Definition post_message (message_args : gmap string pyval) : M (option pyval) :=
  post_message_loop post_message_fuel 0 message_args.

(** *** The handlers of [_init_handlers] *)

Definition pre_format (message : string) : string :=
  "```" ++ message ++ "```".

(** A call whose result is not used. *)
Definition discard {A} (m : M A) : M unit := m;; mret tt.

(** The call of [self.post_message] with [**message_args], as a statement: a key [self] among
    the keyword arguments collides with the bound [self] of the method, and
    the call fails with a [TypeError] before the method is entered. *)
Definition call_post_message (message_args : gmap string pyval) : M unit :=
  if bool_decide (is_Some (message_args !! "self"))
  then raise TypeError
  else discard (post_message message_args).

(** [print(question)] is recorded among the effects with the object that is
    printed. *)
Definition show_question (question : gmap string pyval) : M unit :=
  text ← format_question question;
  emit (Print question);;
  call_post_message
    (bot cfg ∪ <["channel" := trivia_channel cfg]> {["text" := Atom (AStr text)]}).

Definition show_message (message : pyval) : M unit :=
  call_post_message
    (bot cfg ∪ <["channel" := trivia_channel cfg]> {["text" := message]}).


Definition correct_answer (message_payload : gmap string pyval) : M unit :=
  try_except
    (ts ← subscript message_payload "ts";
     web_reactions_add (trivia_channel cfg) (Atom (AStr "white_check_mark")) ts;;
     mret tt)
    is_Exception
    (λ ex, logging_exception ex).

Definition handle_message (event : gmap string pyval) : M unit :=
  type ← subscript event "type";
  if bool_decide (type ≠ Atom (AStr "message")) then mret tt
  else if bool_decide (is_Some (event !! "subtype")) then mret tt
  else if bool_decide (is_Some (event !! "thread_ts")) then mret tt
  else
    channel ← subscript event "channel";
    drop ← (if bool_decide (channel ≠ trivia_channel cfg) then
              user ← subscript event "user";
              mret (bool_decide (user ≠ admin_uid cfg))
            else mret false);
    if drop : bool then mret tt
    else
      uid ← subscript event "user";
      text ← subscript event "text";
      trivia_handle_message uid text event.

(** Keyword arguments given both by name and through [**mapping] make the
    call fail with a [TypeError] before the function is entered. *)
Definition kwargs (named : list (string * pyval)) (extra : gmap string pyval)
    : M (gmap string pyval) :=
  if bool_decide (Exists (λ kv, is_Some (extra !! kv.1)) named)
  then raise TypeError
  else mret (list_to_map named ∪ extra).

Definition error (message_payload : gmap string pyval) (text : pyval) : M unit :=
  user ← subscript message_payload "user";
  ts ← subscript message_payload "ts";
  channel ← subscript message_payload "channel";
  web_reactions_add channel (Atom (AStr "x")) ts;;
  message_args ← kwargs [("channel", channel); ("user", user); ("text", text)] (bot cfg);
  web_chat_postEphemeral message_args;;
  mret tt.

End SlackTrivia.

(** A client that resolves the same [uid] [n] times in a row; time passes
    between the calls as the clock of the world says.  The result is the
    world after the last call, or [None] when one of the calls raised. *)
Fixpoint resolve_repeatedly (slack : platform) (uid : atom) (n : nat) (w : world)
    : option world :=
  match n with
  | O => Some w
  | S n' =>
      match get_display_name slack uid w with
      | (inr _, w') => resolve_repeatedly slack uid n' w'
      | (inl _, _) => None
      end
  end.

(** * Vocabulary of the properties *)

Section Vocabulary.
Variable cfg : config.
Variable slack : platform.
Variable dict_repr : gmap string atom → string.
Variable message_args : gmap string pyval.

(** The condition under which the router hands an event to the engine. *)
Definition relevant (event : gmap string pyval) (type channel user : pyval) : Prop :=
  type = Atom (AStr "message")
  ∧ event !! "subtype" = None
  ∧ event !! "thread_ts" = None
  ∧ (channel = trivia_channel cfg ∨ user = admin_uid cfg).

#[global] Instance relevant_dec event type channel user :
  Decision (relevant event type channel user).
Proof. unfold relevant. apply _. Defined.

(** The cached name and time that a call starts from. *)
Definition cached (w : world) (uid : atom) : atom * Z :=
  default (AStr "???", 0) (names_cache w !! uid).

(** The call finds the entry too old and asks the platform. *)
Definition stale (w : world) (uid : atom) : Prop :=
  clock w (ticks w) > (cached w uid).2 + NAME_CACHE_SECONDS.

(** The state in which the platform is asked for the profile of [uid]. *)
Definition asking (w : world) (uid : atom) : world :=
  add_effect (Log (LogInfo ("Getting username for uid: " ++ str_atom uid)))
    (set_ticks (S (ticks w)) w).

(** The state after the request. *)
Definition asked (w : world) (uid : atom) : world :=
  add_effect (Call (UsersInfo uid)) (asking w uid).

(** The final assignment to the cache, with the second reading of the
    clock, from a state [w'] reached after the first reading. *)
Definition stored (w' : world) (uid name : atom) : world :=
  set_cache (<[uid := (name, clock w' (ticks w'))]> (names_cache w'))
    (set_ticks (S (ticks w')) w').

Definition or_placeholder (name : atom) : atom :=
  if atom_truthy name then name else AStr "(no user)".

#[global] Instance stale_dec w uid : Decision (stale w uid).
Proof. unfold stale. apply _. Defined.

(** A profile without a usable preferred field. *)
Definition nameless (user : gmap string atom) : Prop :=
  ∀ name_type, name_type ∈ name_priority →
    user !! name_type = None
    ∨ user !! name_type = Some ANone
    ∨ user !! name_type = Some (AStr "").

(** The second line of the rendering. *)
Definition line2_base (year category value : pyval) : string :=
  "(" ++ str_val dict_repr year ++ ") *" ++ str_val dict_repr category
  ++ "* for *" ++ str_val dict_repr value ++ "*".

Definition line2_of (year category value comment : pyval) : string :=
  if truthy comment
  then line2_base year category value ++ " _" ++ str_val dict_repr comment ++ "_"
  else line2_base year category value.

Definition line1_answer (winning_answer : pyval) : string :=
  "Answer: *" ++ str_val dict_repr winning_answer ++ "*".

Definition line1_correct (winning_answer : pyval) (username : atom) (score : Z)
    (rank : atom) : string :=
  "Correct: *" ++ str_val dict_repr winning_answer ++ "* -- " ++ str_atom username
  ++ " (today: " ++ thousands score ++ " #" ++ str_atom rank ++ ")".

Definition line3_of (text : pyval) : string := ">" ++ str_val dict_repr text.

(** The number of attempts allowed: [max(max_tries, 1)]. *)
Definition attempts : nat := Z.to_nat (Z.max (max_tries cfg) 1).

(** The send fails on the history [t] with an exception that the handler
    of [post_message] catches. *)
Definition send_fails (t : list effect) : Prop :=
  ∃ ex, chat_postMessage slack t message_args = inl ex ∧ is_Exception ex = true.

(** The state after a failed attempt, the [tries]-th. *)
Definition after_failure (w : world) (ex : exn) (tries : Z) : world :=
  add_effect (Sleep 1)
    (add_effect (Log (LogError ("Slack send error. Try # " ++ str_int tries)))
       (add_effect (Log (LogException ex))
          (add_effect (Call (ChatPostMessage message_args)) w))).

(** The request made by [correct_answer]: its channel comes from the
    configuration, its timestamp from the payload. *)
Definition check_mark (ts : pyval) : call :=
  ReactionsAdd (trivia_channel cfg) (Atom (AStr "white_check_mark")) ts.

End Vocabulary.

Definition is_failure_log (e : effect) : bool :=
  match e with Log (LogException _) => true | _ => false end.

(** Number of failures written to the log. *)
Definition failures_logged (t : list effect) : nat :=
  length (List.filter is_failure_log t).

(** The question record of the worked example. *)
Definition winning_user_example : gmap string atom :=
  list_to_map [("uid", AStr "U1"); ("score", AInt 1234); ("rank", AInt 2)].

Definition question_example : gmap string pyval :=
  list_to_map
    [("winning_user", Dict winning_user_example);
     ("winning_answer", Atom (AStr "Paris"));
     ("year", Atom (AInt 1998));
     ("category", Atom (AStr "Geography"));
     ("value", Atom (AInt 400));
     ("comment", Atom (AStr "tricky"));
     ("question", Atom (AStr "Capital of France?"))].

(** ** A concrete installation *)

Definition cfg_example : config :=
  {| trivia_channel := Atom (AStr "C1");
     admin_uid := Atom (AStr "UADMIN");
     max_tries := 3;
     bot := {["username" := Atom (AStr "Trivia")]} |}.

(** A platform on which every request succeeds; the profile of every user
    has an empty display name and the real name Alice. *)
Definition slack_up : platform :=
  {| users_info := λ _ _,
       inr (<["display_name_normalized" := AStr ""]>
              {["real_name_normalized" := AStr "Alice"]});
     chat_postMessage := λ _ _, inr (Atom (AStr "ok"));
     reactions_add := λ _ _ _ _, inr (Atom (AStr "ok"));
     chat_postEphemeral := λ _ _, inr (Atom (AStr "ok")) |}.

(** A platform on which every request fails. *)
Definition slack_down : platform :=
  {| users_info := λ _ _, inl SlackApiError;
     chat_postMessage := λ _ _, inl (OtherException "connection refused");
     reactions_add := λ _ _ _ _, inl SlackApiError;
     chat_postEphemeral := λ _ _, inl SlackApiError |}.

(** A platform on which the first two sends fail and the later ones succeed. *)
Definition slack_flaky : platform :=
  {| users_info := λ _ _, inl SlackApiError;
     chat_postMessage := λ t _,
       if (posts t <? 2)%nat then inl (OtherException "timed out")
       else inr (Atom (AStr "ok"));
     reactions_add := λ _ _ _ _, inr (Atom (AStr "ok"));
     chat_postEphemeral := λ _ _, inr (Atom (AStr "ok")) |}.

(** A start with an empty cache and a clock that advances by ten hours from
    one reading to the next. *)
Definition world_start : world :=
  {| names_cache := ∅;
     clock := λ n, 1700000000 + 36000 * Z.of_nat n;
     ticks := 0;
     trace := [] |}.

(** The same, with a name for [U1] cached a long time ago. *)
Definition world_old_name : world :=
  set_cache {[AStr "U1" := (AStr "Alice", 1600000000)]} world_start.

(** A message of the admin in a direct-message channel. *)
Definition admin_dm : gmap string pyval :=
  list_to_map
    [("type", Atom (AStr "message"));
     ("channel", Atom (AStr "D9"));
     ("user", Atom (AStr "UADMIN"));
     ("text", Atom (AStr "Paris"));
     ("ts", Atom (AStr "1700000000.000100"))].

Definition greeting : gmap string pyval :=
  {["text" := Atom (AStr "hello")]}.

(** The world after [U1] has been resolved once on [slack_up]. *)
Definition world_resolved : world :=
  (get_display_name slack_up (AStr "U1") world_start).2.

(** The example record with a null comment and no winner, and without the
    comment key. *)
Definition question_null_comment : gmap string pyval :=
  <["comment" := Atom ANone]> (delete "winning_user" question_example).

Definition question_without_comment : gmap string pyval :=
  delete "comment" (delete "winning_user" question_example).

(** ** Vocabulary of the further properties *)

(** Seconds spent in [time.sleep]. *)
Fixpoint slept (t : list effect) : Z :=
  match t with
  | [] => 0
  | Sleep seconds :: t' => seconds + slept t'
  | _ :: t' => slept t'
  end.

Definition is_reaction (e : effect) : bool :=
  match e with Call (ReactionsAdd _ _ _) => true | _ => false end.
Definition is_ephemeral (e : effect) : bool :=
  match e with Call (ChatPostEphemeral _) => true | _ => false end.

Definition reactions (t : list effect) : nat := length (List.filter is_reaction t).
Definition ephemerals (t : list effect) : nat := length (List.filter is_ephemeral t).

(** No cached name is [None], [0] or the empty string. *)
Definition cache_truthy (w : world) : Prop :=
  ∀ uid name stamp, names_cache w !! uid = Some (name, stamp) → atom_truthy name = true.

(** The keys that [format_question] reads by subscript, in the order in
    which it reads them when there is no winner. *)
Definition required_keys : list string :=
  ["winning_answer"; "year"; "category"; "value"; "comment"; "question"].

Definition first_missing (question : gmap string pyval) : option string :=
  List.find (λ key, bool_decide (question !! key = None)) required_keys.

(** A reply in a thread, sent by the admin in the trivia channel. *)
Definition thread_reply : gmap string pyval :=
  <["thread_ts" := Atom (AStr "1699999999.000200")]>
    (<["channel" := Atom (AStr "C1")]> admin_dm).

(** A platform whose requests are interrupted from the keyboard, or cut by
    the network in the case of the profile request. *)
Definition slack_interrupted : platform :=
  {| users_info := λ _ _, inl (OtherException "connection reset");
     chat_postMessage := λ _ _, inl KeyboardInterrupt;
     reactions_add := λ _ _ _ _, inl KeyboardInterrupt;
     chat_postEphemeral := λ _ _, inl KeyboardInterrupt |}.

(** A configuration whose bot options name a channel. *)
Definition cfg_clash : config :=
  {| trivia_channel := Atom (AStr "C1");
     admin_uid := Atom (AStr "UADMIN");
     max_tries := 0;
     bot := {["channel" := Atom (AStr "C2")]} |}.

(** A configuration whose bot options have a key named [self]. *)
Definition cfg_self : config :=
  {| trivia_channel := Atom (AStr "C1");
     admin_uid := Atom (AStr "UADMIN");
     max_tries := 3;
     bot := {["self" := Atom (AStr "Trivia")]} |}.

(** A platform that knows the display name Bob and the real name Robert. *)
Definition slack_bob : platform :=
  {| users_info := λ _ _,
       inr (<["display_name_normalized" := AStr "Bob"]>
              {["real_name_normalized" := AStr "Robert"]});
     chat_postMessage := λ _ _, inr (Atom (AStr "ok"));
     reactions_add := λ _ _ _ _, inr (Atom (AStr "ok"));
     chat_postEphemeral := λ _ _, inr (Atom (AStr "ok")) |}.

(** The example record with the score given as text, and with a winner
    given as a bare user id. *)
Definition question_text_score : gmap string pyval :=
  <["winning_user" := Dict (<["score" := AStr "1234"]> winning_user_example)]>
    question_example.

Definition question_bare_winner : gmap string pyval :=
  <["winning_user" := Atom (AStr "U1")]> question_example.

(** * Properties *)

(** Unfolding of the monad operations. *)
Ltac munfold :=
  unfold mbind, M_bind, mret, M_ret, raise, try_except, emit, time_sleep,
    logging_exception, logging_error, logging_info, subscript in *.

Lemma subscript_Some {V} (d : gmap string V) key v w :
  d !! key = Some v → subscript d key w = (inr v, w).
Proof. intros H. unfold subscript. rewrite H. reflexivity. Qed.

Lemma subscript_None {V} (d : gmap string V) key w :
  d !! key = None → subscript d key w = (inl (KeyError key), w).
Proof. intros H. unfold subscript. rewrite H. reflexivity. Qed.

Lemma add_effect_neq e w : add_effect e w ≠ w.
Proof.
  intros H. apply (f_equal (λ x, length (trace x))) in H.
  cbn in H. rewrite length_app in H. cbn in H. lia.
Qed.

(** ** Rendering of integers *)

Example str_int_1998 : str_int 1998 = "1998".
Proof. reflexivity. Qed.
Example str_int_neg : str_int (-40) = "-40".
Proof. reflexivity. Qed.
Example thousands_1234 : thousands 1234 = "1,234".
Proof. reflexivity. Qed.
Example thousands_big : thousands (-1234567) = "-1,234,567".
Proof. reflexivity. Qed.
Example thousands_small : thousands 999 = "999".
Proof. reflexivity. Qed.
Example thousands_zero : thousands 0 = "0".
Proof. reflexivity. Qed.
Example str_int_time : str_int 1700036000 = "1700036000".
Proof. reflexivity. Qed.

(** ** The event router *)

Section Router.
Variable cfg : config.

Lemma handle_message_forward event type channel user text w :
  event !! "type" = Some type → event !! "channel" = Some channel →
  event !! "user" = Some user → event !! "text" = Some text →
  relevant cfg event type channel user →
  handle_message cfg event w
  = (inr tt, add_effect (EngineHandleMessage user text event) w).
Proof.
  intros Hty Hch Hu Htx (-> & Hsub & Hthr & Hor).
  unfold handle_message, trivia_handle_message. munfold.
  rewrite Hty, Hch, Hu, Htx, Hsub, Hthr. cbn.
  rewrite bool_decide_eq_false_2 by (intros H; by apply H).
  cbn.
  destruct Hor as [-> | ->].
  - by rewrite bool_decide_eq_false_2 by (intros H; by apply H).
  - case_bool_decide; cbn; [|reflexivity].
    by rewrite bool_decide_eq_false_2 by (intros H'; by apply H').
Qed.

Lemma handle_message_drop event type channel user w :
  event !! "type" = Some type → event !! "channel" = Some channel →
  event !! "user" = Some user →
  ¬ relevant cfg event type channel user →
  handle_message cfg event w = (inr tt, w).
Proof.
  intros Hty Hch Hu Hn.
  unfold handle_message, trivia_handle_message. munfold.
  rewrite Hty, Hch, Hu. cbn.
  case_bool_decide as H1; [reflexivity|].
  case_bool_decide as H2; [reflexivity|].
  case_bool_decide as H3; [reflexivity|].
  cbn.
  case_bool_decide as H4; cbn.
  - case_bool_decide as H5; [reflexivity|].
    exfalso. apply Hn. unfold relevant.
    apply eq_None_not_Some in H2, H3. auto.
  - exfalso. apply Hn. unfold relevant.
    apply eq_None_not_Some in H2, H3. auto.
Qed.

(** The handler reads the channel by subscript: a plain message without that
    key makes it raise. *)
Lemma handle_message_needs_channel event w :
  event !! "type" = Some (Atom (AStr "message")) →
  event !! "subtype" = None → event !! "thread_ts" = None →
  event !! "channel" = None →
  handle_message cfg event w = (inl (KeyError "channel"), w).
Proof.
  intros Hty Hsub Hthr Hch. unfold handle_message. munfold.
  rewrite Hty, Hsub, Hthr, Hch. cbn.
  by rewrite bool_decide_eq_false_2 by (intros H; by apply H).
Qed.

(** C1.  An event that carries the attributes of an inbound message event
    (type, channel, user, text) is handed to the engine, as
    [(uid = user, text = text, message_payload = event)], if and only if
    its type is ['message'], it has no ['subtype'] key, it has no
    ['thread_ts'] key, and its channel is the trivia channel or its user is
    the admin; in every other case the handler returns normally and the
    world is unchanged: no call of the engine, no exception. *)
Theorem handle_message_routes event type channel user text w :
  event !! "type" = Some type → event !! "channel" = Some channel →
  event !! "user" = Some user → event !! "text" = Some text →
  (handle_message cfg event w
     = (inr tt, add_effect (EngineHandleMessage user text event) w)
   ↔ relevant cfg event type channel user)
  ∧ (¬ relevant cfg event type channel user →
     handle_message cfg event w = (inr tt, w)).
Proof.
  intros Hty Hch Hu Htx. split; [split|].
  - intros Hfw. destruct (decide (relevant cfg event type channel user)) as [|Hn]; [done|].
    rewrite (handle_message_drop _ _ _ _ _ Hty Hch Hu Hn) in Hfw.
    inversion Hfw as [Hw]. symmetry in Hw. by apply add_effect_neq in Hw.
  - by apply handle_message_forward.
  - intros Hn; by eapply handle_message_drop.
Qed.

End Router.

(** ** The display-name cache *)

Section NameCache.
Variable slack : platform.

Lemma or_placeholder_truthy name : atom_truthy (or_placeholder name) = true.
Proof. unfold or_placeholder. by destruct (atom_truthy name) eqn:E. Qed.

Lemma or_placeholder_id name : atom_truthy name = true → or_placeholder name = name.
Proof. unfold or_placeholder. by intros ->. Qed.

Lemma get_display_name_fresh uid w :
  ¬ stale w uid →
  get_display_name slack uid w
  = (inr (or_placeholder (cached w uid).1),
     stored (set_ticks (S (ticks w)) w) uid (or_placeholder (cached w uid).1)).
Proof.
  unfold stale, cached. intros Hf.
  unfold get_display_name, cache_get, cache_set, time_time. munfold.
  destruct (default (AStr "???", 0) (names_cache w !! uid)) as [name name_time].
  cbn in *.
  destruct (Z.gtb_spec (clock w (ticks w)) (name_time + NAME_CACHE_SECONDS)); [lia|].
  reflexivity.
Qed.

Lemma get_display_name_stale uid w :
  stale w uid →
  get_display_name slack uid w
  = match users_info slack (trace (asking w uid)) uid with
    | inr user =>
        (inr (or_placeholder (pick_name user name_priority)),
         stored (asked w uid) uid (or_placeholder (pick_name user name_priority)))
    | inl e =>
        if is_SlackApiError e
        then (inr (AStr "(no user)"), stored (asked w uid) uid (AStr "(no user)"))
        else (inl e, asked w uid)
    end.
Proof.
  unfold stale, cached. intros Hs.
  unfold get_display_name, cache_get, cache_set, time_time, web_users_info. munfold.
  destruct (default (AStr "???", 0) (names_cache w !! uid)) as [name name_time].
  cbn in *.
  destruct (Z.gtb_spec (clock w (ticks w)) (name_time + NAME_CACHE_SECONDS)); [|lia].
  cbn.
  destruct (users_info slack _ uid) as [e|user]; [|reflexivity].
  by destruct e.
Qed.

Lemma lookups_asked w uid : lookups (trace (asked w uid)) = S (lookups (trace w)).
Proof.
  unfold lookups, asked, asking. cbn.
  rewrite !List.filter_app, !length_app. cbn. lia.
Qed.

Lemma stored_cache w' uid name :
  names_cache (stored w' uid name) !! uid = Some (name, clock w' (ticks w')).
Proof. unfold stored. cbn. apply lookup_insert_eq. Qed.

(** What a call that returns leaves behind. *)
Lemma get_display_name_returns uid w name w' :
  get_display_name slack uid w = (inr name, w') →
  atom_truthy name = true
  ∧ names_cache w' !! uid = Some (name, clock w (S (ticks w)))
  ∧ clock w' = clock w
  ∧ ticks w' = S (S (ticks w)).
Proof.
  intros Hcall. destruct (decide (stale w uid)) as [Hs|Hf].
  - rewrite (get_display_name_stale _ _ Hs) in Hcall.
    destruct (users_info slack _ uid) as [e|user].
    + destruct (is_SlackApiError e); [|discriminate].
      inversion Hcall; subst. rewrite stored_cache. done.
    + inversion Hcall; subst. rewrite stored_cache.
      by rewrite or_placeholder_truthy.
  - rewrite (get_display_name_fresh _ _ Hf) in Hcall.
    inversion Hcall; subst. rewrite stored_cache.
    by rewrite or_placeholder_truthy.
Qed.

(** A call that finds a fresh entry asks nothing and returns its name. *)
Lemma get_display_name_hit uid w name stamp :
  names_cache w !! uid = Some (name, stamp) →
  atom_truthy name = true →
  clock w (ticks w) ≤ stamp + NAME_CACHE_SECONDS →
  get_display_name slack uid w
  = (inr name, stored (set_ticks (S (ticks w)) w) uid name).
Proof.
  intros Hc Ht Hle.
  rewrite get_display_name_fresh.
  - unfold cached. rewrite Hc. cbn. by rewrite or_placeholder_id.
  - unfold stale, cached. rewrite Hc. cbn. lia.
Qed.

(** A call that finds a stale entry asks the platform exactly once,
    whatever the answer is. *)
Lemma get_display_name_miss uid w :
  stale w uid →
  lookups (trace (get_display_name slack uid w).2) = S (lookups (trace w)).
Proof.
  intros Hs. rewrite (get_display_name_stale _ _ Hs).
  destruct (users_info slack _ uid) as [e|user]; [destruct (is_SlackApiError e)|];
    cbn [snd]; apply lookups_asked.
Qed.


(** C8 (amended).  When the call asks the platform and the request raises
    [SlackApiError], the one exception that the call catches, the call
    returns the placeholder ["(no user)"]
    (whether or not a name was cached before), writes the placeholder and
    the current time into the cache entry of [uid], and a repeated call
    made within twelve hours of that time returns the placeholder without
    a new lookup. *)
Theorem failed_lookup_refreshes uid w :
  stale w uid →
  users_info slack (trace (asking w uid)) uid = inl SlackApiError →
  let w' := stored (asked w uid) uid (AStr "(no user)") in
  get_display_name slack uid w = (inr (AStr "(no user)"), w')
  ∧ names_cache w' !! uid = Some (AStr "(no user)", clock w (S (ticks w)))
  ∧ lookups (trace w') = S (lookups (trace w))
  ∧ (clock w' (ticks w') ≤ clock w (S (ticks w)) + NAME_CACHE_SECONDS →
     (get_display_name slack uid w').1 = inr (AStr "(no user)")
     ∧ lookups (trace (get_display_name slack uid w').2) = lookups (trace w')).
Proof.
  intros Hs Hfail w'.
  assert (Hc : names_cache w' !! uid = Some (AStr "(no user)", clock w (S (ticks w))))
    by apply stored_cache.
  split; [|split; [done|split]].
  - rewrite (get_display_name_stale _ _ Hs), Hfail. reflexivity.
  - apply lookups_asked.
  - intros Hle. by rewrite (get_display_name_hit _ _ _ _ Hc eq_refl Hle).
Qed.

(** Consecutive calls that each start within twelve hours of the end of
    the previous one never ask the platform. *)
Lemma resolve_repeatedly_fresh uid n :
  ∀ w name stamp,
    names_cache w !! uid = Some (name, stamp) →
    atom_truthy name = true →
    ((0 < n)%nat → clock w (ticks w) ≤ stamp + NAME_CACHE_SECONDS) →
    (∀ i, (S i < n)%nat →
          clock w (ticks w + 2 + 2 * i)%nat
          ≤ clock w (ticks w + 1 + 2 * i)%nat + NAME_CACHE_SECONDS) →
    ∃ wn stamp',
      resolve_repeatedly slack uid n w = Some wn
      ∧ trace wn = trace w
      ∧ names_cache wn !! uid = Some (name, stamp').
Proof.
  induction n as [|n IH]; intros w name stamp Hc Ht Hfirst Hnext.
  - exists w, stamp. done.
  - cbn [resolve_repeatedly].
    rewrite (get_display_name_hit _ _ _ _ Hc Ht) by (apply Hfirst; lia).
    set (w1 := stored (set_ticks (S (ticks w)) w) uid name).
    destruct (IH w1 name (clock w (S (ticks w)))) as (wn & stamp' & Hr & Htr & Hcn).
    + apply stored_cache.
    + done.
    + intros Hn. cbn.
      specialize (Hnext O ltac:(lia)).
      by replace (ticks w + 2 + 2 * 0)%nat with (S (S (ticks w))) in Hnext by lia;
         replace (ticks w + 1 + 2 * 0)%nat with (S (ticks w)) in Hnext by lia.
    + intros i Hi. cbn.
      specialize (Hnext (S i) ltac:(lia)).
      by replace (ticks w + 2 + 2 * S i)%nat with (S (S (ticks w)) + 2 + 2 * i)%nat
           in Hnext by lia;
         replace (ticks w + 1 + 2 * S i)%nat with (S (S (ticks w)) + 1 + 2 * i)%nat
           in Hnext by lia.
    + exists wn, stamp'. done.
Qed.

(** C9.  Every call that returns, with or without a lookup, leaves in the
    cache entry of [uid] the name it returned and the time it read last;
    hence, after a first call, [n] further calls of which each starts at
    most twelve hours after the end of the one before all return and never
    ask the platform again, however much time passes in total. *)
Theorem every_call_rewrites_cache uid w name w1 :
  get_display_name slack uid w = (inr name, w1) →
  names_cache w1 !! uid = Some (name, clock w (S (ticks w)))
  ∧ ∀ n,
      (∀ i, (i < n)%nat →
            clock w (ticks w + 2 + 2 * i)%nat
            ≤ clock w (ticks w + 1 + 2 * i)%nat + NAME_CACHE_SECONDS) →
      ∃ wn stamp,
        resolve_repeatedly slack uid n w1 = Some wn
        ∧ lookups (trace wn) = lookups (trace w1)
        ∧ names_cache wn !! uid = Some (name, stamp).
Proof.
  intros Hcall.
  destruct (get_display_name_returns _ _ _ _ Hcall) as (Ht & Hc & Hclock & Hticks).
  split; [done|]. intros n Hgap.
  destruct (resolve_repeatedly_fresh uid n w1 name (clock w (S (ticks w))))
    as (wn & stamp & Hr & Htr & Hcn); [done|done| | |].
  - intros Hn. rewrite Hclock, Hticks.
    specialize (Hgap O Hn).
    by replace (ticks w + 2 + 2 * 0)%nat with (S (S (ticks w))) in Hgap by lia;
       replace (ticks w + 1 + 2 * 0)%nat with (S (ticks w)) in Hgap by lia.
  - intros i Hi. rewrite Hclock, Hticks.
    specialize (Hgap (S i) Hi).
    by replace (ticks w + 2 + 2 * S i)%nat with (S (S (ticks w)) + 2 + 2 * i)%nat
         in Hgap by lia;
       replace (ticks w + 1 + 2 * S i)%nat with (S (S (ticks w)) + 1 + 2 * i)%nat
         in Hgap by lia.
  - exists wn, stamp. by rewrite Htr.
Qed.

Lemma pick_name_nameless user priority :
  (∀ name_type, name_type ∈ priority →
     user !! name_type = None
     ∨ user !! name_type = Some ANone
     ∨ user !! name_type = Some (AStr "")) →
  pick_name user priority = ANone.
Proof.
  induction priority as [|k rest IH]; intros H; [done|].
  cbn. destruct (H k ltac:(left)) as [-> | [-> | ->]]; cbn;
    apply IH; intros k' Hk'; apply H; by right.
Qed.

(** C10 (amended).  When the cache holds a name for [uid] that is older than
    twelve hours, and the lookup raises [SlackApiError] or returns a profile in
    which every preferred field is missing, null or empty, the call
    returns ["(no user)"] and stores it with the current time: the old
    name is not used. *)
Theorem stale_name_discarded uid w old stamp :
  names_cache w !! uid = Some (old, stamp) →
  clock w (ticks w) > stamp + NAME_CACHE_SECONDS →
  users_info slack (trace (asking w uid)) uid = inl SlackApiError
  ∨ (∃ user, users_info slack (trace (asking w uid)) uid = inr user
             ∧ nameless user) →
  ∃ w',
    get_display_name slack uid w = (inr (AStr "(no user)"), w')
    ∧ names_cache w' !! uid = Some (AStr "(no user)", clock w (S (ticks w)))
    ∧ lookups (trace w') = S (lookups (trace w)).
Proof.
  intros Hc Hold Hlookup.
  assert (Hs : stale w uid) by (unfold stale, cached; rewrite Hc; cbn; lia).
  exists (stored (asked w uid) uid (AStr "(no user)")).
  split; [|split; [apply stored_cache | apply lookups_asked]].
  rewrite (get_display_name_stale _ _ Hs).
  destruct Hlookup as [-> | (user & -> & Hn)]; [done|].
  by rewrite (pick_name_nameless _ _ Hn).
Qed.

End NameCache.

(** ** Question formatting *)

Section Formatting.
Variable slack : platform.
Variable dict_repr : gmap string atom → string.

(** No winner: [winning_user] is missing or false. *)
Lemma format_question_no_winner question winning_answer year category value comment text w :
  truthy (default (Atom ANone) (question !! "winning_user")) = false →
  question !! "winning_answer" = Some winning_answer →
  question !! "year" = Some year →
  question !! "category" = Some category →
  question !! "value" = Some value →
  question !! "comment" = Some comment →
  question !! "question" = Some text →
  format_question slack dict_repr question w
  = (inr (line1_answer dict_repr winning_answer ++ newline
          ++ line2_of dict_repr year category value comment ++ newline
          ++ line3_of dict_repr text), w).
Proof.
  intros Hu Hwa Hy Hc Hv Hcm Hq.
  unfold format_question. munfold.
  rewrite Hu, Hwa, Hy, Hc, Hv, Hcm, Hq.
  unfold line2_of, line2_base. cbn -[String.app].
  by destruct (truthy comment).
Qed.

(** A winner whose name is resolved. *)
Lemma format_question_winner question user username score rank
    winning_answer year category value comment text w w' :
  question !! "winning_user" = Some (Dict user) →
  user ≠ ∅ →
  get_display_name slack (default (AStr "") (user !! "uid")) w = (inr username, w') →
  user !! "score" = Some (AInt score) →
  user !! "rank" = Some rank →
  question !! "winning_answer" = Some winning_answer →
  question !! "year" = Some year →
  question !! "category" = Some category →
  question !! "value" = Some value →
  question !! "comment" = Some comment →
  question !! "question" = Some text →
  format_question slack dict_repr question w
  = (inr (line1_correct dict_repr winning_answer username score rank ++ newline
          ++ line2_of dict_repr year category value comment ++ newline
          ++ line3_of dict_repr text), w').
Proof.
  intros Hu Hne Hname Hs Hr Hwa Hy Hc Hv Hcm Hq.
  unfold format_question. munfold.
  rewrite Hu, Hwa, Hy, Hc, Hv, Hcm, Hq.
  cbn [from_option id truthy]. rewrite bool_decide_eq_false_2 by done.
  cbn [negb]. rewrite Hname, Hs, Hr.
  unfold line2_of, line2_base. cbn -[String.app].
  by destruct (truthy comment).
Qed.

(** Without the [comment] key the rendering fails at the test of the
    comment, once the first line has been built. *)
Lemma format_question_no_comment question winning_answer year category value w :
  truthy (default (Atom ANone) (question !! "winning_user")) = false →
  question !! "winning_answer" = Some winning_answer →
  question !! "year" = Some year →
  question !! "category" = Some category →
  question !! "value" = Some value →
  question !! "comment" = None →
  format_question slack dict_repr question w = (inl (KeyError "comment"), w).
Proof.
  intros Hu Hwa Hy Hc Hv Hcm.
  unfold format_question. munfold.
  by rewrite Hu, Hwa, Hy, Hc, Hv, Hcm.
Qed.

(** C2.  With a display-name resolution of ["U1"] that yields ["Alice"],
    the example record is rendered as the three lines
    [Correct: *Paris* -- Alice (today: 1,234 #2)],
    [(1998) *Geography* for *400* _tricky_] and [>Capital of France?]
    joined by newlines; without its [winning_user] the first line is
    [Answer: *Paris*] and the other two are the same. *)
Theorem format_question_example w w' :
  get_display_name slack (AStr "U1") w = (inr (AStr "Alice"), w') →
  format_question slack dict_repr question_example w
  = (inr ("Correct: *Paris* -- Alice (today: 1,234 #2)" ++ newline
          ++ "(1998) *Geography* for *400* _tricky_" ++ newline
          ++ ">Capital of France?"), w')
  ∧ ∀ w0,
      format_question slack dict_repr (delete "winning_user" question_example) w0
      = (inr ("Answer: *Paris*" ++ newline
              ++ "(1998) *Geography* for *400* _tricky_" ++ newline
              ++ ">Capital of France?"), w0).
Proof.
  intros Hname. split.
  - by rewrite (format_question_winner question_example winning_user_example
                  (AStr "Alice") 1234 (AInt 2)
                  (Atom (AStr "Paris")) (Atom (AInt 1998)) (Atom (AStr "Geography"))
                  (Atom (AInt 400)) (Atom (AStr "tricky"))
                  (Atom (AStr "Capital of France?")) w w').
  - intros w0.
    by rewrite (format_question_no_winner (delete "winning_user" question_example)
                  (Atom (AStr "Paris")) (Atom (AInt 1998)) (Atom (AStr "Geography"))
                  (Atom (AInt 400)) (Atom (AStr "tricky"))
                  (Atom (AStr "Capital of France?")) w0).
Qed.

(** C3 (amended).  For a record that has the keys [winning_answer], [year],
    [category], [value], [comment] and [question], the rendering succeeds
    when there is no winner, and when there is a winner with an integer
    score and a rank whose name is resolved; the second line is
    [(year) *category* for *value*], followed by [ _comment_] exactly when
    the comment is true, so that a null or empty comment adds nothing. *)
Theorem format_question_comment question winning_answer year category value
    comment text w :
  question !! "winning_answer" = Some winning_answer →
  question !! "year" = Some year →
  question !! "category" = Some category →
  question !! "value" = Some value →
  question !! "comment" = Some comment →
  question !! "question" = Some text →
  let base := "(" ++ str_val dict_repr year ++ ") *" ++ str_val dict_repr category
              ++ "* for *" ++ str_val dict_repr value ++ "*" in
  let line2 := if truthy comment
               then base ++ " _" ++ str_val dict_repr comment ++ "_"
               else base in
  (truthy (default (Atom ANone) (question !! "winning_user")) = false →
   format_question slack dict_repr question w
   = (inr (line1_answer dict_repr winning_answer ++ newline ++ line2 ++ newline
           ++ line3_of dict_repr text), w))
  ∧ (∀ user username score rank w',
       question !! "winning_user" = Some (Dict user) →
       user ≠ ∅ →
       get_display_name slack (default (AStr "") (user !! "uid")) w
       = (inr username, w') →
       user !! "score" = Some (AInt score) →
       user !! "rank" = Some rank →
       format_question slack dict_repr question w
       = (inr (line1_correct dict_repr winning_answer username score rank ++ newline
               ++ line2 ++ newline ++ line3_of dict_repr text), w'))
  ∧ (comment = Atom ANone ∨ comment = Atom (AStr "") → line2 = base).
Proof.
  intros Hwa Hy Hc Hv Hcm Hq base line2. split; [|split].
  - intros Hu. by apply format_question_no_winner.
  - intros user username score rank w' Hu Hne Hname Hs Hr.
    by eapply format_question_winner.
  - by intros [-> | ->].
Qed.

End Formatting.

(** ** Sending with retries *)

Section Send.
Variable cfg : config.
Variable slack : platform.
Variable message_args : gmap string pyval.

Lemma posts_after_failure w ex tries :
  posts (trace (after_failure message_args w ex tries)) = S (posts (trace w)).
Proof.
  unfold posts, after_failure. cbn.
  rewrite !List.filter_app, !length_app. cbn. lia.
Qed.

Lemma failures_after_failure w ex tries :
  failures_logged (trace (after_failure message_args w ex tries)) = S (failures_logged (trace w)).
Proof.
  unfold failures_logged, after_failure. cbn.
  rewrite !List.filter_app, !length_app. cbn. lia.
Qed.

Lemma post_message_loop_failure fuel tries w ex :
  tries < Z.max (max_tries cfg) 1 →
  chat_postMessage slack (trace w) message_args = inl ex →
  is_Exception ex = true →
  post_message_loop cfg slack (S fuel) tries message_args w
  = post_message_loop cfg slack fuel (tries + 1) message_args
      (after_failure message_args w ex (tries + 1)).
Proof.
  intros Hlt Hsend Hex. cbn [post_message_loop].
  destruct (Z.ltb_spec tries (Z.max (max_tries cfg) 1)); [|lia].
  unfold web_chat_postMessage. munfold. by rewrite Hsend, Hex.
Qed.

Lemma post_message_loop_success fuel tries w r :
  tries < Z.max (max_tries cfg) 1 →
  chat_postMessage slack (trace w) message_args = inr r →
  post_message_loop cfg slack (S fuel) tries message_args w
  = (inr (Some r), add_effect (Call (ChatPostMessage message_args)) w).
Proof.
  intros Hlt Hsend. cbn [post_message_loop].
  destruct (Z.ltb_spec tries (Z.max (max_tries cfg) 1)); [|lia].
  unfold web_chat_postMessage. munfold. by rewrite Hsend.
Qed.

Lemma post_message_loop_exit fuel tries w :
  Z.max (max_tries cfg) 1 ≤ tries →
  post_message_loop cfg slack (S fuel) tries message_args w
  = (inr (Some (Atom ANone)), w).
Proof.
  intros Hge. cbn [post_message_loop].
  by destruct (Z.ltb_spec tries (Z.max (max_tries cfg) 1)); [lia|].
Qed.

(** When every attempt fails, the loop uses up the remaining tries. *)
Lemma post_message_loop_all_fail (left : nat) :
  (∀ t, send_fails slack message_args t) →
  ∀ fuel tries w,
    Z.max (max_tries cfg) 1 - tries = Z.of_nat left →
    (left < fuel)%nat →
    ∃ w',
      post_message_loop cfg slack fuel tries message_args w
      = (inr (Some (Atom ANone)), w')
      ∧ posts (trace w') = (posts (trace w) + left)%nat
      ∧ failures_logged (trace w') = (failures_logged (trace w) + left)%nat.
Proof.
  intros Hfail. induction left as [|left IH]; intros fuel tries w Hleft Hfuel.
  - destruct fuel as [|fuel]; [lia|].
    exists w. rewrite post_message_loop_exit by lia.
    split; [done|]. split; lia.
  - destruct fuel as [|fuel]; [lia|].
    destruct (Hfail (trace w)) as (ex & Hsend & Hex).
    rewrite (post_message_loop_failure _ _ _ ex) by (done || lia).
    destruct (IH fuel (tries + 1) (after_failure message_args w ex (tries + 1)))
      as (w' & Hrun & Hposts & Hlogs); [lia|lia|].
    exists w'. rewrite Hrun, Hposts, Hlogs.
    rewrite posts_after_failure, failures_after_failure.
    split; [done|]. split; lia.
Qed.

(** When the first [failed] attempts fail and the next one succeeds, the
    loop stops there. *)
Lemma post_message_loop_then_success (failed : nat) r :
  ∀ fuel tries w,
    tries + Z.of_nat failed < Z.max (max_tries cfg) 1 →
    (failed < fuel)%nat →
    (∀ t, (posts t < posts (trace w) + failed)%nat → send_fails slack message_args t) →
    (∀ t, posts t = (posts (trace w) + failed)%nat →
          chat_postMessage slack t message_args = inr r) →
    ∃ w',
      post_message_loop cfg slack fuel tries message_args w = (inr (Some r), w')
      ∧ posts (trace w') = (posts (trace w) + S failed)%nat
      ∧ failures_logged (trace w') = (failures_logged (trace w) + failed)%nat.
Proof.
  induction failed as [|failed IH]; intros fuel tries w Hlt Hfuel Hfail Hok.
  - destruct fuel as [|fuel]; [lia|].
    rewrite (post_message_loop_success _ _ _ r) by (lia || (apply Hok; lia)).
    eexists. split; [done|]. unfold posts, failures_logged. cbn.
    rewrite !List.filter_app, !length_app. cbn. split; lia.
  - destruct fuel as [|fuel]; [lia|].
    destruct (Hfail (trace w)) as (ex & Hsend & Hex); [lia|].
    rewrite (post_message_loop_failure _ _ _ ex) by (done || lia).
    destruct (IH fuel (tries + 1) (after_failure message_args w ex (tries + 1)))
      as (w' & Hrun & Hposts & Hlogs).
    + lia.
    + lia.
    + intros t Ht. apply Hfail. rewrite posts_after_failure in Ht. lia.
    + intros t Ht. apply Hok. rewrite posts_after_failure in Ht. lia.
    + exists w'. rewrite Hrun, Hposts, Hlogs.
      rewrite posts_after_failure, failures_after_failure.
      split; [done|]. split; lia.
Qed.

(** The fuel given by [post_message] is enough: the loop always ends with a
    returned value or an exception. *)
Lemma post_message_loop_ends fuel :
  ∀ tries w,
    (0 < fuel)%nat →
    Z.max (max_tries cfg) 1 - tries < Z.of_nat fuel →
    (post_message_loop cfg slack fuel tries message_args w).1 ≠ inr None.
Proof.
  induction fuel as [|fuel IH]; intros tries w Hpos Hfuel; [lia|].
  destruct (Z.ltb_spec tries (Z.max (max_tries cfg) 1)) as [Hlt|Hge].
  - destruct (chat_postMessage slack (trace w) message_args) as [ex|r] eqn:Hsend.
    + destruct (is_Exception ex) eqn:Hex.
      * rewrite (post_message_loop_failure _ _ _ ex) by done.
        apply IH; lia.
      * cbn [post_message_loop].
        destruct (Z.ltb_spec tries (Z.max (max_tries cfg) 1)); [|lia].
        unfold web_chat_postMessage. munfold. by rewrite Hsend, Hex.
    + by rewrite (post_message_loop_success _ _ _ r).
  - by rewrite post_message_loop_exit.
Qed.

Lemma post_message_ends w :
  (post_message cfg slack message_args w).1 ≠ inr None.
Proof.
  unfold post_message, post_message_fuel. apply post_message_loop_ends; lia.
Qed.

(** C4.  If the send fails every time, [post_message] makes exactly
    [max(max_tries, 1)] attempts, logs each failure, and then returns
    [None] without raising.  If the first [failed] attempts fail, with
    [failed] below that bound, and the next attempt succeeds, it returns
    the result of that attempt, having made [failed + 1] attempts and no
    more; in particular a send that succeeds at once is made once. *)
Theorem post_message_retries w :
  ((∀ t, send_fails slack message_args t) →
   ∃ w',
     post_message cfg slack message_args w = (inr (Some (Atom ANone)), w')
     ∧ posts (trace w') = (posts (trace w) + attempts cfg)%nat
     ∧ failures_logged (trace w') = (failures_logged (trace w) + attempts cfg)%nat)
  ∧ (∀ failed r,
       (failed < attempts cfg)%nat →
       (∀ t, (posts t < posts (trace w) + failed)%nat → send_fails slack message_args t) →
       (∀ t, posts t = (posts (trace w) + failed)%nat →
             chat_postMessage slack t message_args = inr r) →
       ∃ w',
         post_message cfg slack message_args w = (inr (Some r), w')
         ∧ posts (trace w') = (posts (trace w) + S failed)%nat
         ∧ failures_logged (trace w') = (failures_logged (trace w) + failed)%nat).
Proof.
  unfold post_message, post_message_fuel, attempts. split.
  - intros Hfail. apply post_message_loop_all_fail; [done|lia|lia].
  - intros failed r Hlt Hfail Hok.
    apply post_message_loop_then_success; [lia|lia|done|done].
Qed.

End Send.

(** ** Reactions *)

Section Reactions.
Variable cfg : config.
Variable slack : platform.

Lemma correct_answer_reacts message_payload ts w :
  message_payload !! "ts" = Some ts →
  correct_answer cfg slack message_payload w
  = match reactions_add slack (trace w) (trivia_channel cfg)
            (Atom (AStr "white_check_mark")) ts with
    | inr _ => (inr tt, add_effect (Call (check_mark cfg ts)) w)
    | inl ex =>
        if is_Exception ex
        then (inr tt, add_effect (Log (LogException ex))
                        (add_effect (Call (check_mark cfg ts)) w))
        else (inl ex, add_effect (Call (check_mark cfg ts)) w)
    end.
Proof.
  intros Hts. unfold correct_answer, web_reactions_add, check_mark. munfold.
  rewrite Hts. cbn.
  by destruct (reactions_add slack _ _ _ _) as [ex|r].
Qed.

(** Whatever [Exception] the platform raises, [correct_answer] returns
    normally. *)
Lemma correct_answer_swallows message_payload w :
  (∀ t ch nm ts ex, reactions_add slack t ch nm ts = inl ex → is_Exception ex = true) →
  (correct_answer cfg slack message_payload w).1 = inr tt.
Proof.
  intros Hex. destruct (message_payload !! "ts") as [ts|] eqn:Hts.
  - rewrite (correct_answer_reacts _ _ _ Hts).
    destruct (reactions_add slack _ _ _ _) as [ex|r] eqn:Hr; [|done].
    by rewrite (Hex _ _ _ _ _ Hr).
  - unfold correct_answer. munfold. by rewrite Hts.
Qed.

Lemma kwargs_disjoint named extra w :
  Forall (λ kv : string * pyval, extra !! kv.1 = None) named →
  kwargs named extra w = (inr (list_to_map named ∪ extra), w).
Proof.
  intros Hd. unfold kwargs. munfold.
  rewrite bool_decide_eq_false_2; [done|].
  rewrite Exists_exists. intros ((k & v) & Hin & Hsome).
  rewrite Forall_forall in Hd. specialize (Hd _ Hin). cbn in *.
  rewrite Hd in Hsome. by destruct Hsome.
Qed.

(** C6.  [error] takes user, timestamp and channel from the payload, adds
    the reaction [x] to that message, then sends the text as an ephemeral
    message to that channel and that user, with the bot options.  An
    exception raised by either request leaves [error] as it is: when the
    reaction fails nothing more is sent, and when the ephemeral message
    fails the exception is raised after the reaction was added. *)
Theorem error_reports message_payload text user ts channel w :
  message_payload !! "user" = Some user →
  message_payload !! "ts" = Some ts →
  message_payload !! "channel" = Some channel →
  bot cfg !! "channel" = None →
  bot cfg !! "user" = None →
  bot cfg !! "text" = None →
  let message_args :=
    <["channel" := channel]> (<["user" := user]> (<["text" := text]> (bot cfg))) in
  let w1 := add_effect (Call (ReactionsAdd channel (Atom (AStr "x")) ts)) w in
  let w2 := add_effect (Call (ChatPostEphemeral message_args)) w1 in
  (∀ ex, reactions_add slack (trace w) channel (Atom (AStr "x")) ts = inl ex →
         error cfg slack message_payload text w = (inl ex, w1))
  ∧ (∀ r ex, reactions_add slack (trace w) channel (Atom (AStr "x")) ts = inr r →
             chat_postEphemeral slack (trace w1) message_args = inl ex →
             error cfg slack message_payload text w = (inl ex, w2))
  ∧ (∀ r r', reactions_add slack (trace w) channel (Atom (AStr "x")) ts = inr r →
             chat_postEphemeral slack (trace w1) message_args = inr r' →
             error cfg slack message_payload text w = (inr tt, w2)).
Proof.
  intros Hu Hts Hch Hb1 Hb2 Hb3 message_args w1 w2.
  assert (Hargs : ∀ w',
    kwargs [("channel", channel); ("user", user); ("text", text)] (bot cfg) w'
    = (inr message_args, w')).
  { intros w'. rewrite kwargs_disjoint by (repeat constructor; done).
    unfold message_args. rewrite !list_to_map_cons, list_to_map_nil.
    by rewrite <- !insert_union_l, (left_id_L ∅ (∪)). }
  unfold error, web_reactions_add, web_chat_postEphemeral.
  split; [|split].
  - intros ex Hr. munfold. rewrite Hu, Hts, Hch. cbn. by rewrite Hr.
  - intros r ex Hr Hs. munfold. rewrite Hu, Hts, Hch. cbn. rewrite Hr.
    rewrite Hargs. cbn in *. by rewrite Hs.
  - intros r r' Hr Hs. munfold. rewrite Hu, Hts, Hch. cbn. rewrite Hr.
    rewrite Hargs. cbn in *. by rewrite Hs.
Qed.

End Reactions.

(** * Further properties of the adapter *)

(** ** The event router *)

Section RouterEdges.
Variable cfg : config.

(** X1.  An event that has a [subtype] or a [thread_ts] key is dropped
    whatever its channel, user and text are, also when they are missing and
    also when the user is the admin: the filter stops before reading them. *)
Theorem thread_and_subtype_dropped event type w :
  event !! "type" = Some type →
  is_Some (event !! "subtype") ∨ is_Some (event !! "thread_ts") →
  handle_message cfg event w = (inr tt, w).
Proof.
  intros Hty Hor. unfold handle_message. munfold. rewrite Hty. cbn.
  case_bool_decide; [done|].
  destruct Hor as [H1 | H1].
  - by rewrite (bool_decide_eq_true_2 _ H1).
  - case_bool_decide; [done|]. by rewrite (bool_decide_eq_true_2 _ H1).
Qed.

(** X3.  The keys are read by subscript, so a missing one is a [KeyError]:
    the type of any event; the channel of a plain message; the user of a
    plain message outside the trivia channel, or of one that is to be
    forwarded; the text of a message that is to be forwarded.  In each case
    nothing has happened when the exception is raised. *)
Theorem handle_message_missing_key event w :
  (event !! "type" = None →
   handle_message cfg event w = (inl (KeyError "type"), w))
  ∧ (event !! "type" = Some (Atom (AStr "message")) →
     event !! "subtype" = None → event !! "thread_ts" = None →
     (event !! "channel" = None →
      handle_message cfg event w = (inl (KeyError "channel"), w))
     ∧ (is_Some (event !! "channel") → event !! "user" = None →
        handle_message cfg event w = (inl (KeyError "user"), w))
     ∧ (∀ user, event !! "channel" = Some (trivia_channel cfg) →
          event !! "user" = Some user → event !! "text" = None →
          handle_message cfg event w = (inl (KeyError "text"), w))).
Proof.
  split; [|intros Hty Hsub Hthr; split; [|split]].
  - intros Hty. unfold handle_message. munfold. by rewrite Hty.
  - intros Hch. unfold handle_message. munfold.
    rewrite Hty, Hsub, Hthr, Hch. cbn.
    by rewrite bool_decide_eq_false_2 by (intros H; by apply H).
  - intros [channel Hch] Hu. unfold handle_message. munfold.
    rewrite Hty, Hsub, Hthr, Hch, Hu. cbn.
    rewrite bool_decide_eq_false_2 by (intros H; by apply H). cbn.
    by case_bool_decide.
  - intros user Hch Hu Ht. unfold handle_message. munfold.
    rewrite Hty, Hsub, Hthr, Hch, Hu, Ht. cbn.
    rewrite bool_decide_eq_false_2 by (intros H; by apply H). cbn.
    by rewrite bool_decide_eq_false_2 by (intros H; by apply H).
Qed.

End RouterEdges.

(** ** Sending *)

Section SendEdges.
Variable cfg : config.
Variable slack : platform.
Variable message_args : gmap string pyval.

Lemma slept_app t1 t2 : slept (t1 ++ t2) = slept t1 + slept t2.
Proof.
  induction t1 as [|e t1 IH]; cbn; [lia|].
  destruct e; rewrite ?IH; lia.
Qed.

Lemma slept_after_failure w ex tries :
  slept (trace (after_failure message_args w ex tries)) = slept (trace w) + 1.
Proof. unfold after_failure. cbn. rewrite !slept_app. cbn. lia. Qed.

(** The loop under a transport whose failures are all of class
    [Exception]: it returns, after [sent] sends of which [failed] failed. *)
Lemma post_message_loop_runs :
  (∀ t ex, chat_postMessage slack t message_args = inl ex → is_Exception ex = true) →
  ∀ fuel tries w,
    (0 < fuel)%nat →
    Z.max (max_tries cfg) 1 - tries < Z.of_nat fuel →
    ∃ r w' (sent failed : nat),
      post_message_loop cfg slack fuel tries message_args w = (inr (Some r), w')
      ∧ posts (trace w') = (posts (trace w) + sent)%nat
      ∧ failures_logged (trace w') = (failures_logged (trace w) + failed)%nat
      ∧ slept (trace w') = slept (trace w) + Z.of_nat failed
      ∧ (failed ≤ sent ≤ failed + 1)%nat
      ∧ Z.of_nat sent ≤ Z.max 0 (Z.max (max_tries cfg) 1 - tries)
      ∧ (tries < Z.max (max_tries cfg) 1 → (1 ≤ sent)%nat)
      ∧ names_cache w' = names_cache w ∧ ticks w' = ticks w.
Proof.
  intros Hex. induction fuel as [|fuel IH]; intros tries w Hpos Hfuel; [lia|].
  destruct (Z.ltb_spec tries (Z.max (max_tries cfg) 1)) as [Hlt|Hge].
  - destruct (chat_postMessage slack (trace w) message_args) as [ex|r] eqn:Hsend.
    + rewrite (post_message_loop_failure _ _ _ _ _ _ ex) by eauto.
      destruct (IH (tries + 1) (after_failure message_args w ex (tries + 1)))
        as (r & w' & sent & failed & Hrun & Hp & Hf & Hs & Hb & Hle & H1 & Hc & Ht);
        [lia|lia|].
      exists r, w', (S sent), (S failed).
      rewrite Hrun, Hp, Hf, Hs, Hc, Ht.
      rewrite posts_after_failure, failures_after_failure, slept_after_failure.
      repeat split; try done; lia.
    + rewrite (post_message_loop_success _ _ _ _ _ _ r) by done.
      exists r, (add_effect (Call (ChatPostMessage message_args)) w), 1%nat, 0%nat.
      unfold posts, failures_logged. cbn.
      rewrite !List.filter_app, !length_app, slept_app. cbn.
      repeat split; try done; lia.
  - rewrite post_message_loop_exit by lia.
    exists (Atom ANone), w, 0%nat, 0%nat. repeat split; try done; lia.
Qed.

(** X4.  When the transport fails only with exceptions of class
    [Exception], [post_message] never raises: it returns after at least one
    and at most [max(max_tries, 1)] sends, all of them failed except possibly
    the last; it has slept one second after each failure, the last one
    included, and has not touched the name cache or the clock. *)
Theorem post_message_never_raises w :
  (∀ t ex, chat_postMessage slack t message_args = inl ex → is_Exception ex = true) →
  ∃ r w' (sent failed : nat),
    post_message cfg slack message_args w = (inr (Some r), w')
    ∧ posts (trace w') = (posts (trace w) + sent)%nat
    ∧ failures_logged (trace w') = (failures_logged (trace w) + failed)%nat
    ∧ slept (trace w') = slept (trace w) + Z.of_nat failed
    ∧ (failed ≤ sent ≤ failed + 1)%nat
    ∧ (1 ≤ sent ≤ attempts cfg)%nat
    ∧ names_cache w' = names_cache w ∧ ticks w' = ticks w.
Proof.
  intros Hex.
  destruct (post_message_loop_runs Hex (post_message_fuel cfg) 0 w)
    as (r & w' & sent & failed & Hrun & Hp & Hf & Hs & Hb & Hle & H1 & Hc & Ht).
  - unfold post_message_fuel. lia.
  - unfold post_message_fuel. lia.
  - exists r, w', sent, failed. unfold post_message, attempts.
    repeat split; try done; lia.
Qed.

(** X5.  An exception that is not of class [Exception], such as a keyboard
    interrupt during the first send, leaves [post_message] at once: it is not
    logged, there is no sleep and no further attempt. *)
Theorem post_message_interrupted w ex :
  chat_postMessage slack (trace w) message_args = inl ex →
  is_Exception ex = false →
  post_message cfg slack message_args w
  = (inl ex, add_effect (Call (ChatPostMessage message_args)) w).
Proof.
  intros Hsend Hex. unfold post_message, post_message_fuel.
  cbn [post_message_loop].
  destruct (Z.ltb_spec 0 (Z.max (max_tries cfg) 1)); [|lia].
  unfold web_chat_postMessage. munfold. by rewrite Hsend, Hex.
Qed.

End SendEdges.

(** ** Question formatting *)

Section FormattingEdges.
Variable cfg : config.
Variable slack : platform.
Variable dict_repr : gmap string atom → string.

(** Without a winner the keys are read in the order of [required_keys]. *)
Lemma format_question_first_missing question w :
  truthy (default (Atom ANone) (question !! "winning_user")) = false →
  match first_missing question with
  | Some key => format_question slack dict_repr question w = (inl (KeyError key), w)
  | None => ∃ text, format_question slack dict_repr question w = (inr text, w)
  end.
Proof.
  intros Hu. unfold first_missing, required_keys, format_question. munfold.
  rewrite Hu. cbn [List.find].
  destruct (question !! "winning_answer") as [wa|]; cbn; [|done].
  destruct (question !! "year") as [year|]; cbn; [|done].
  destruct (question !! "category") as [category|]; cbn; [|done].
  destruct (question !! "value") as [value|]; cbn; [|done].
  destruct (question !! "comment") as [comment|]; cbn; [|done].
  destruct (question !! "question") as [text|]; cbn; [|done].
  eauto.
Qed.

(** X6.  For a record without winner, [format_question] succeeds exactly
    when the six keys [winning_answer], [year], [category], [value],
    [comment] and [question] are all present; otherwise it raises [KeyError]
    for the first of them, in this order, that is missing.  Either way it
    performs no effect. *)
Theorem format_question_keys question w :
  truthy (default (Atom ANone) (question !! "winning_user")) = false →
  (∀ key, first_missing question = Some key →
          format_question slack dict_repr question w = (inl (KeyError key), w))
  ∧ (first_missing question = None →
     ∃ text, format_question slack dict_repr question w = (inr text, w)).
Proof.
  intros Hu. pose proof (format_question_first_missing question w Hu) as H.
  split.
  - intros key Hk. by rewrite Hk in H.
  - intros Hk. by rewrite Hk in H.
Qed.

(** X7.  With a winner whose name has been resolved, a score that is not an
    integer makes the rendering fail: [KeyError] when the winner has no
    score, [TypeError] when it is null, [ValueError] when it is a string,
    and [KeyError] again when the score is an integer but the rank is
    missing.  The name lookup has happened by then: its effects stay. *)
Theorem format_question_bad_score question user username winning_answer w w' :
  question !! "winning_user" = Some (Dict user) →
  user ≠ ∅ →
  get_display_name slack (default (AStr "") (user !! "uid")) w = (inr username, w') →
  question !! "winning_answer" = Some winning_answer →
  (user !! "score" = None →
   format_question slack dict_repr question w = (inl (KeyError "score"), w'))
  ∧ (user !! "score" = Some ANone →
     format_question slack dict_repr question w = (inl TypeError, w'))
  ∧ (∀ s, user !! "score" = Some (AStr s) →
          format_question slack dict_repr question w = (inl ValueError, w'))
  ∧ (∀ z, user !! "score" = Some (AInt z) → user !! "rank" = None →
          format_question slack dict_repr question w = (inl (KeyError "rank"), w')).
Proof.
  intros Hu Hne Hname Hwa.
  assert (Hwinner : truthy (Dict user) = true).
  { cbn. by rewrite bool_decide_eq_false_2. }
  repeat split.
  - intros Hs. unfold format_question. munfold. rewrite Hu.
    cbn [from_option id]. by rewrite Hwinner, Hname, Hwa, Hs.
  - intros Hs. unfold format_question. munfold. rewrite Hu.
    cbn [from_option id]. by rewrite Hwinner, Hname, Hwa, Hs.
  - intros s Hs. unfold format_question. munfold. rewrite Hu.
    cbn [from_option id]. by rewrite Hwinner, Hname, Hwa, Hs.
  - intros z Hs Hr. unfold format_question. munfold. rewrite Hu.
    cbn [from_option id]. by rewrite Hwinner, Hname, Hwa, Hs, Hr.
Qed.

(** X8.  A [winning_user] that is true but is not a mapping, such as a
    non-empty string or a non-zero number, makes [format_question] raise
    [AttributeError] before anything else is read. *)
Theorem format_question_winner_not_mapping question (a : atom) w :
  question !! "winning_user" = Some (Atom a) →
  atom_truthy a = true →
  format_question slack dict_repr question w = (inl AttributeError, w).
Proof.
  intros Hu Ha. unfold format_question. munfold. rewrite Hu.
  cbn [from_option id truthy]. by rewrite Ha.
Qed.

(** X9.  [show_question] posts nothing when the record cannot be rendered:
    for a record without winner that lacks one of the required keys, the
    [KeyError] leaves the handler and no request is made. *)
Theorem show_question_missing_key question key w :
  truthy (default (Atom ANone) (question !! "winning_user")) = false →
  first_missing question = Some key →
  show_question cfg slack dict_repr question w = (inl (KeyError key), w).
Proof.
  intros Hu Hk. pose proof (format_question_first_missing question w Hu) as H.
  rewrite Hk in H. unfold show_question. munfold. by rewrite H.
Qed.

End FormattingEdges.

(** ** Posting handlers *)

Section ShowEdges.
Variable cfg : config.
Variable slack : platform.

Lemma call_post_message_plain message_args w :
  message_args !! "self" = None →
  call_post_message cfg slack message_args w
  = discard (post_message cfg slack message_args) w.
Proof.
  intros Hs. unfold call_post_message.
  rewrite bool_decide_eq_false_2; [done|]. rewrite Hs. by intros [? ?].
Qed.

Lemma call_post_message_self message_args w :
  is_Some (message_args !! "self") →
  call_post_message cfg slack message_args w = (inl TypeError, w).
Proof.
  intros Hs. unfold call_post_message. by rewrite bool_decide_eq_true_2.
Qed.

(** X10.  [show_message] calls [post_message] with the bot options together
    with the trivia channel and the text, and drops its result; as the
    options come last in the dictionary, an option named [channel] or [text]
    replaces the value given by the handler.  An option named [self] cannot
    be passed as a keyword: the call raises [TypeError] and nothing is
    sent. *)
Theorem show_message_options message w :
  (is_Some (bot cfg !! "self") →
   show_message cfg slack message w = (inl TypeError, w))
  ∧ (bot cfg !! "self" = None →
     ∃ message_args,
       show_message cfg slack message w
       = discard (post_message cfg slack message_args) w
       ∧ (∀ key v, bot cfg !! key = Some v → message_args !! key = Some v)
       ∧ (bot cfg !! "channel" = None →
          message_args !! "channel" = Some (trivia_channel cfg))
       ∧ (bot cfg !! "text" = None → message_args !! "text" = Some message)
       ∧ (∀ key, key ≠ "channel" → key ≠ "text" →
                 message_args !! key = bot cfg !! key)).
Proof.
  split.
  - intros [v Hs]. unfold show_message. apply call_post_message_self.
    exists v. by apply lookup_union_Some_l.
  - intros Hs. eexists. split; [|split; [|split; [|split]]].
    + unfold show_message. apply call_post_message_plain.
      rewrite lookup_union_r by done.
      rewrite lookup_insert_ne by done. by rewrite lookup_singleton_ne.
    + intros key v Hk. by apply lookup_union_Some_l.
    + intros Hb. rewrite lookup_union_r by done. by rewrite lookup_insert_eq.
    + intros Hb. rewrite lookup_union_r by done.
      rewrite lookup_insert_ne by done. by rewrite lookup_singleton_eq.
    + intros key Hc Ht. rewrite lookup_union.
      rewrite lookup_insert_ne by done. rewrite lookup_singleton_ne by done.
      by destruct (bot cfg !! key).
Qed.


End ShowEdges.

(** ** Reactions and error reports *)

Section ReactionEdges.
Variable cfg : config.
Variable slack : platform.

(** X12.  A payload without timestamp: the [KeyError] is raised inside the
    [try] block, so [correct_answer] logs it and returns, and no reaction is
    requested. *)
Theorem correct_answer_missing_ts message_payload w :
  message_payload !! "ts" = None →
  correct_answer cfg slack message_payload w
  = (inr tt, add_effect (Log (LogException (KeyError "ts"))) w).
Proof. intros Hts. unfold correct_answer. munfold. by rewrite Hts. Qed.

Lemma reactions_add_effect e w :
  reactions (trace (add_effect e w))
  = (reactions (trace w) + if is_reaction e then 1 else 0)%nat.
Proof.
  unfold reactions. cbn. rewrite List.filter_app, length_app. cbn.
  by destruct (is_reaction e).
Qed.

(** X13.  When the platform fails only with exceptions of class
    [Exception], [correct_answer] returns normally for every payload; it
    requests at most one reaction, always for the configured trivia channel,
    and leaves the name cache and the clock alone. *)
Theorem correct_answer_never_raises message_payload w :
  (∀ t ch nm ts ex, reactions_add slack t ch nm ts = inl ex → is_Exception ex = true) →
  ∃ w',
    correct_answer cfg slack message_payload w = (inr tt, w')
    ∧ (reactions (trace w') ≤ reactions (trace w) + 1)%nat
    ∧ (∀ ch nm ts, Call (ReactionsAdd ch nm ts) ∈ trace w' →
                   Call (ReactionsAdd ch nm ts) ∈ trace w ∨ ch = trivia_channel cfg)
    ∧ names_cache w' = names_cache w ∧ ticks w' = ticks w.
Proof.
  intros Hex. destruct (message_payload !! "ts") as [ts|] eqn:Hts.
  - rewrite (correct_answer_reacts _ _ _ _ _ Hts).
    destruct (reactions_add slack _ _ _ _) as [ex|r] eqn:Hr.
    + rewrite (Hex _ _ _ _ _ Hr). eexists. split; [done|].
      rewrite !reactions_add_effect. cbn. split; [lia|]. split; [|done].
      intros ch nm ts'. rewrite !elem_of_app, !list_elem_of_singleton.
      intros [[?|Heq]|Heq]; [by left| |done]. right. by inversion Heq.
    + eexists. split; [done|].
      rewrite !reactions_add_effect. cbn. split; [lia|]. split; [|done].
      intros ch nm ts'. rewrite !elem_of_app, !list_elem_of_singleton.
      intros [?|Heq]; [by left|]. right. by inversion Heq.
  - rewrite (correct_answer_missing_ts _ _ Hts). eexists. split; [done|].
    rewrite !reactions_add_effect. cbn. split; [lia|]. split; [|done].
    intros ch nm ts'. rewrite !elem_of_app, !list_elem_of_singleton.
    intros [?|Heq]; [by left|done].
Qed.

(** X14.  [error] reads user, timestamp and channel before it asks the
    platform for anything: when one of them is missing it raises [KeyError]
    for the first missing one, in this order, and neither the reaction nor
    the ephemeral message is requested. *)
Theorem error_missing_key message_payload text w :
  (message_payload !! "user" = None →
   error cfg slack message_payload text w = (inl (KeyError "user"), w))
  ∧ (is_Some (message_payload !! "user") → message_payload !! "ts" = None →
     error cfg slack message_payload text w = (inl (KeyError "ts"), w))
  ∧ (is_Some (message_payload !! "user") → is_Some (message_payload !! "ts") →
     message_payload !! "channel" = None →
     error cfg slack message_payload text w = (inl (KeyError "channel"), w)).
Proof.
  repeat split.
  - intros Hu. unfold error. munfold. by rewrite Hu.
  - intros [user Hu] Hts. unfold error. munfold. by rewrite Hu, Hts.
  - intros [user Hu] [ts Hts] Hch. unfold error. munfold. by rewrite Hu, Hts, Hch.
Qed.

(** X15.  When the bot options name [channel], [user] or [text], the
    ephemeral message cannot be sent: the keyword is given twice, the call
    raises [TypeError], and this happens after the reaction has been added.
    ([show_message] accepts the same options: there they replace the values
    of the handler.) *)
Theorem error_option_clash message_payload text user ts channel r w :
  message_payload !! "user" = Some user →
  message_payload !! "ts" = Some ts →
  message_payload !! "channel" = Some channel →
  is_Some (bot cfg !! "channel") ∨ is_Some (bot cfg !! "user")
  ∨ is_Some (bot cfg !! "text") →
  reactions_add slack (trace w) channel (Atom (AStr "x")) ts = inr r →
  error cfg slack message_payload text w
  = (inl TypeError, add_effect (Call (ReactionsAdd channel (Atom (AStr "x")) ts)) w).
Proof.
  intros Hu Hts Hch Hclash Hr.
  unfold error, web_reactions_add, kwargs. munfold.
  rewrite Hu, Hts, Hch. cbn. rewrite Hr.
  rewrite bool_decide_eq_true_2; [done|].
  rewrite Exists_exists.
  destruct Hclash as [H|[H|H]].
  - exists ("channel", channel). split; [|done]. set_solver.
  - exists ("user", user). split; [|done]. set_solver.
  - exists ("text", text). split; [|done]. set_solver.
Qed.

End ReactionEdges.

(** ** The name cache *)

Section NameCacheEdges.
Variable slack : platform.

(** The cache after a call is the cache before it, with at most the entry
    of [uid] replaced. *)
Lemma get_display_name_cache uid w :
  names_cache (get_display_name slack uid w).2 = names_cache w
  ∨ ∃ name stamp,
      (get_display_name slack uid w).1 = inr name
      ∧ atom_truthy name = true
      ∧ names_cache (get_display_name slack uid w).2
        = <[uid := (name, stamp)]> (names_cache w).
Proof.
  destruct (decide (stale w uid)) as [Hs|Hf].
  - rewrite (get_display_name_stale _ _ _ Hs).
    destruct (users_info slack _ uid) as [ex|user].
    + destruct (is_SlackApiError ex); [|by left].
      right. by eexists _, _.
    + right. eexists _, _. split; [done|]. split; [apply or_placeholder_truthy|done].
  - rewrite (get_display_name_fresh _ _ _ Hf).
    right. eexists _, _. split; [done|]. split; [apply or_placeholder_truthy|done].
Qed.

(** X16.  A call for [uid] leaves the cache entries of all other users as
    they were, whether it returns or raises. *)
Theorem get_display_name_other_entries uid uid' w :
  uid' ≠ uid →
  names_cache (get_display_name slack uid w).2 !! uid' = names_cache w !! uid'.
Proof.
  intros Hne. destruct (get_display_name_cache uid w) as [-> | (name & stamp & _ & _ & ->)].
  - done.
  - by rewrite lookup_insert_ne.
Qed.

(** X17.  The name returned is never [None], never empty and never zero: it
    is a name or the placeholder.  Hence a cache that holds only such names
    still does after any call. *)
Theorem get_display_name_never_empty uid w :
  cache_truthy w →
  cache_truthy (get_display_name slack uid w).2
  ∧ ∀ name, (get_display_name slack uid w).1 = inr name →
            atom_truthy name = true ∧ name ≠ ANone ∧ name ≠ AStr "".
Proof.
  intros Hinv. split.
  - destruct (get_display_name_cache uid w) as [Heq | (name & stamp & _ & Ht & Heq)];
      unfold cache_truthy; rewrite Heq; [done|].
    intros uid' name' stamp'. destruct (decide (uid = uid')) as [->|Hne].
    + rewrite lookup_insert_eq. by intros [= <- <-].
    + rewrite lookup_insert_ne by done. apply Hinv.
  - intros name Hname.
    destruct (get_display_name slack uid w) as [res w'] eqn:Hcall. cbn in Hname.
    subst res.
    destruct (get_display_name_returns _ _ _ _ _ Hcall) as (Ht & _).
    split; [done|]. split; intros ->; discriminate.
Qed.

(** X18.  A lookup prefers the normalized display name; the normalized real
    name is used when the display name is missing, null or empty.  The name
    found replaces whatever was cached. *)
Theorem preferred_name uid w user s :
  stale w uid →
  users_info slack (trace (asking w uid)) uid = inr user →
  s ≠ "" →
  user !! "display_name_normalized" = Some (AStr s)
  ∨ ((user !! "display_name_normalized" = None
      ∨ user !! "display_name_normalized" = Some ANone
      ∨ user !! "display_name_normalized" = Some (AStr ""))
     ∧ user !! "real_name_normalized" = Some (AStr s)) →
  get_display_name slack uid w = (inr (AStr s), stored (asked w uid) uid (AStr s))
  ∧ names_cache (stored (asked w uid) uid (AStr s)) !! uid
    = Some (AStr s, clock w (S (ticks w))).
Proof.
  intros Hs Hinfo Hne Hfields. split; [|apply stored_cache].
  rewrite (get_display_name_stale _ _ _ Hs), Hinfo.
  assert (Hpick : pick_name user name_priority = AStr s).
  { assert (Hok : bool_decide (AStr s ≠ ANone) && bool_decide (AStr s ≠ AStr "") = true).
    { rewrite !bool_decide_eq_true_2; [done|congruence|done]. }
    unfold name_priority. cbn [pick_name].
    destruct Hfields as [-> | [[-> | [-> | ->]] ->]]; by rewrite ?Hok. }
  rewrite Hpick.
  assert (Ht : atom_truthy (AStr s) = true).
  { cbn. destruct (String.eqb_spec s ""); [congruence|done]. }
  by rewrite (or_placeholder_id _ Ht).
Qed.

(** X19.  [get_display_name] catches [SlackApiError] only.  Any other
    exception of the profile request leaves the function, and the cache is
    not written: unlike after a [SlackApiError], the next call for the same
    user asks the platform again. *)
Theorem get_display_name_other_exception uid w ex :
  stale w uid →
  users_info slack (trace (asking w uid)) uid = inl ex →
  is_SlackApiError ex = false →
  get_display_name slack uid w = (inl ex, asked w uid)
  ∧ names_cache (asked w uid) = names_cache w
  ∧ (clock w (ticks w) ≤ clock w (S (ticks w)) → stale (asked w uid) uid).
Proof.
  intros Hs Hinfo Hex. split; [|split].
  - by rewrite (get_display_name_stale _ _ _ Hs), Hinfo, Hex.
  - done.
  - unfold stale, cached in *. cbn in *. lia.
Qed.

(** X20.  For a user that is not in the cache the default entry is
    [('???', 0)]: the platform is asked exactly once when the clock reads
    more than twelve hours, and when it reads less the call returns ['???']
    without asking and caches it. *)
Theorem get_display_name_unknown uid w :
  names_cache w !! uid = None →
  (clock w (ticks w) > NAME_CACHE_SECONDS →
   lookups (trace (get_display_name slack uid w).2) = S (lookups (trace w)))
  ∧ (clock w (ticks w) ≤ NAME_CACHE_SECONDS →
     (get_display_name slack uid w).1 = inr (AStr "???")
     ∧ trace (get_display_name slack uid w).2 = trace w
     ∧ names_cache (get_display_name slack uid w).2 !! uid
       = Some (AStr "???", clock w (S (ticks w)))).
Proof.
  intros Hc. split.
  - intros Hgt. apply get_display_name_miss.
    unfold stale, cached. rewrite Hc. cbn. lia.
  - intros Hle. rewrite get_display_name_fresh.
    + unfold cached. rewrite Hc. cbn [fst snd from_option id].
      split; [done|]. split; [done|]. apply stored_cache.
    + unfold stale, cached. rewrite Hc. cbn. lia.
Qed.

End NameCacheEdges.

(** ** Composition of rendering and sending *)

Section Decoration.
Variable cfg : config.
Variable slack : platform.
Variable dict_repr : gmap string atom → string.

(** X21.  When the record is rendered, [show_question] prints the record,
    then calls [post_message] with the rendering, as a string, the trivia
    channel and the bot options, in the state that the rendering has left
    (the name of the winner is cached by then), and drops the result.  With
    a bot option named [self] the record is printed and the call raises
    [TypeError] with nothing sent. *)
Theorem show_question_posts_rendering question text w w' :
  format_question slack dict_repr question w = (inr text, w') →
  (is_Some (bot cfg !! "self") →
   show_question cfg slack dict_repr question w
   = (inl TypeError, add_effect (Print question) w'))
  ∧ (bot cfg !! "self" = None →
     bot cfg !! "channel" = None →
     bot cfg !! "text" = None →
     ∃ message_args,
       show_question cfg slack dict_repr question w
       = discard (post_message cfg slack message_args) (add_effect (Print question) w')
       ∧ message_args !! "channel" = Some (trivia_channel cfg)
       ∧ message_args !! "text" = Some (Atom (AStr text))
       ∧ ∀ key v, bot cfg !! key = Some v → message_args !! key = Some v).
Proof.
  intros Hfmt. split.
  - intros [v Hs]. unfold show_question. munfold. rewrite Hfmt.
    apply call_post_message_self. exists v. by apply lookup_union_Some_l.
  - intros Hs Hc Ht. eexists. split; [|split; [|split]].
    + unfold show_question. munfold. rewrite Hfmt.
      apply call_post_message_plain.
      rewrite lookup_union_r by done.
      rewrite lookup_insert_ne by done. by rewrite lookup_singleton_ne.
    + rewrite lookup_union_r by done. by rewrite lookup_insert_eq.
    + rewrite lookup_union_r by done.
      rewrite lookup_insert_ne by done. by rewrite lookup_singleton_eq.
    + intros key v Hk. by apply lookup_union_Some_l.
Qed.

Lemma list_ascii_of_append s t :
  list_ascii_of_string (s ++ t)%string
  = (list_ascii_of_string s ++ list_ascii_of_string t)%list.
Proof.
  induction s as [|a s IH]; [done|].
  change (String a s ++ t)%string with (String a (s ++ t)%string).
  cbn [list_ascii_of_string]. by rewrite IH.
Qed.

(** X22.  The code-block decoration of [pre_format] loses nothing: two
    messages with the same decorated form are the same message. *)
Theorem pre_format_inj message1 message2 :
  pre_format message1 = pre_format message2 → message1 = message2.
Proof.
  unfold pre_format. intros H.
  apply (f_equal list_ascii_of_string) in H.
  rewrite !list_ascii_of_append in H.
  apply app_inv_head, app_inv_tail in H.
  rewrite <- (string_of_list_ascii_of_string message1),
          <- (string_of_list_ascii_of_string message2).
  by rewrite H.
Qed.

End Decoration.

(** ** The properties on the concrete installation *)

Lemma handle_message_routes_witness :
  (handle_message cfg_example admin_dm world_start
   = (inr tt,
      add_effect
        (EngineHandleMessage (Atom (AStr "UADMIN")) (Atom (AStr "Paris")) admin_dm)
        world_start)
   ↔ relevant cfg_example admin_dm (Atom (AStr "message")) (Atom (AStr "D9"))
       (Atom (AStr "UADMIN")))
  ∧ (¬ relevant cfg_example admin_dm (Atom (AStr "message")) (Atom (AStr "D9"))
         (Atom (AStr "UADMIN")) →
     handle_message cfg_example admin_dm world_start = (inr tt, world_start)).
Proof.
  apply (handle_message_routes cfg_example admin_dm (Atom (AStr "message"))
           (Atom (AStr "D9")) (Atom (AStr "UADMIN")) (Atom (AStr "Paris")) world_start);
    reflexivity.
Defined.

Lemma format_question_example_witness :
  format_question slack_up (λ _, "{}") question_example world_start
  = (inr ("Correct: *Paris* -- Alice (today: 1,234 #2)" ++ newline
          ++ "(1998) *Geography* for *400* _tricky_" ++ newline
          ++ ">Capital of France?"), world_resolved)
  ∧ ∀ w0,
      format_question slack_up (λ _, "{}") (delete "winning_user" question_example) w0
      = (inr ("Answer: *Paris*" ++ newline
              ++ "(1998) *Geography* for *400* _tricky_" ++ newline
              ++ ">Capital of France?"), w0).
Proof.
  apply (format_question_example slack_up (λ _, "{}") world_start world_resolved).
  reflexivity.
Defined.

(** C3, as stated, fails: a record without the [comment] key, which the
    field list allows, makes [format_question] raise [KeyError]. *)
Lemma format_question_comment_absent :
  question_without_comment !! "comment" = None
  ∧ format_question slack_up (λ _, "{}") question_without_comment world_start
    = (inl (KeyError "comment"), world_start).
Proof. split; reflexivity. Qed.

Lemma format_question_comment_witness :
  format_question slack_up (λ _, "{}") question_null_comment world_start
  = (inr ("Answer: *Paris*" ++ newline ++ "(1998) *Geography* for *400*" ++ newline
          ++ ">Capital of France?"), world_start).
Proof.
  apply (format_question_comment slack_up (λ _, "{}") question_null_comment
           (Atom (AStr "Paris")) (Atom (AInt 1998)) (Atom (AStr "Geography"))
           (Atom (AInt 400)) (Atom ANone) (Atom (AStr "Capital of France?"))
           world_start); reflexivity.
Defined.

Lemma post_message_retries_witness :
  (∃ w',
     post_message cfg_example slack_down greeting world_start
     = (inr (Some (Atom ANone)), w')
     ∧ posts (trace w') = 3%nat
     ∧ failures_logged (trace w') = 3%nat)
  ∧ (∃ w',
       post_message cfg_example slack_flaky greeting world_start
       = (inr (Some (Atom (AStr "ok"))), w')
       ∧ posts (trace w') = 3%nat
       ∧ failures_logged (trace w') = 2%nat).
Proof.
  split.
  - apply (proj1 (post_message_retries cfg_example slack_down greeting world_start)).
    intros t. exists (OtherException "connection refused"). split; reflexivity.
  - apply (proj2 (post_message_retries cfg_example slack_flaky greeting world_start)
             2%nat (Atom (AStr "ok"))).
    + vm_compute. lia.
    + intros t Ht. exists (OtherException "timed out").
      change (posts (trace world_start)) with 0%nat in Ht.
      unfold slack_flaky. cbn [chat_postMessage].
      destruct (Nat.ltb_spec (posts t) 2); [split; reflexivity | lia].
    + intros t Ht.
      change (posts (trace world_start)) with 0%nat in Ht.
      unfold slack_flaky. cbn [chat_postMessage].
      destruct (Nat.ltb_spec (posts t) 2); [lia | reflexivity].
Defined.

(** C5 fails on the code: for a correct answer that the admin sends from
    another channel, which the router forwards, the reaction is requested for
    the trivia channel and not for the channel of the message. *)
Theorem correct_answer_wrong_channel :
  handle_message cfg_example admin_dm world_start
  = (inr tt,
     add_effect
       (EngineHandleMessage (Atom (AStr "UADMIN")) (Atom (AStr "Paris")) admin_dm)
       world_start)
  ∧ admin_dm !! "channel" = Some (Atom (AStr "D9"))
  ∧ correct_answer cfg_example slack_up admin_dm world_start
    = (inr tt,
       add_effect
         (Call (ReactionsAdd (Atom (AStr "C1")) (Atom (AStr "white_check_mark"))
                  (Atom (AStr "1700000000.000100"))))
         world_start).
Proof. repeat split; reflexivity. Qed.

Lemma error_reports_witness :
  error cfg_example slack_up admin_dm (Atom (AStr "Nope")) world_start
  = (inr tt,
     add_effect
       (Call (ChatPostEphemeral
                (<["channel" := Atom (AStr "D9")]>
                   (<["user" := Atom (AStr "UADMIN")]>
                      (<["text" := Atom (AStr "Nope")]> (bot cfg_example))))))
       (add_effect
          (Call (ReactionsAdd (Atom (AStr "D9")) (Atom (AStr "x"))
                   (Atom (AStr "1700000000.000100"))))
          world_start))
  ∧ error cfg_example slack_down admin_dm (Atom (AStr "Nope")) world_start
    = (inl SlackApiError,
       add_effect
         (Call (ReactionsAdd (Atom (AStr "D9")) (Atom (AStr "x"))
                  (Atom (AStr "1700000000.000100"))))
         world_start).
Proof.
  split.
  - apply (proj2 (proj2
      (error_reports cfg_example slack_up admin_dm (Atom (AStr "Nope"))
         (Atom (AStr "UADMIN")) (Atom (AStr "1700000000.000100")) (Atom (AStr "D9"))
         world_start eq_refl eq_refl eq_refl eq_refl eq_refl eq_refl))
      (Atom (AStr "ok")) (Atom (AStr "ok"))); reflexivity.
  - apply (proj1
      (error_reports cfg_example slack_down admin_dm (Atom (AStr "Nope"))
         (Atom (AStr "UADMIN")) (Atom (AStr "1700000000.000100")) (Atom (AStr "D9"))
         world_start eq_refl eq_refl eq_refl eq_refl eq_refl eq_refl)).
    reflexivity.
Defined.

(** C8, as stated, fails: a lookup can fail with an exception other than
    [SlackApiError], such as a broken connection; the call then raises, and
    the cache entry of the user is not written. *)
Lemma failed_lookup_other_exception :
  users_info slack_interrupted (trace (asking world_start (AStr "U404"))) (AStr "U404")
  = inl (OtherException "connection reset")
  ∧ get_display_name slack_interrupted (AStr "U404") world_start
    = (inl (OtherException "connection reset"), asked world_start (AStr "U404"))
  ∧ names_cache (asked world_start (AStr "U404")) !! AStr "U404" = None.
Proof. repeat split; reflexivity. Qed.

(** C10, as stated, fails: when the lookup for a user with an old cached
    name fails with an exception other than [SlackApiError], the call raises;
    no placeholder is returned or cached, and the old entry stays. *)
Lemma stale_name_kept_on_other_exception :
  names_cache world_old_name !! AStr "U1" = Some (AStr "Alice", 1600000000)
  ∧ clock world_old_name (ticks world_old_name) > 1600000000 + NAME_CACHE_SECONDS
  ∧ users_info slack_interrupted (trace (asking world_old_name (AStr "U1"))) (AStr "U1")
    = inl (OtherException "connection reset")
  ∧ get_display_name slack_interrupted (AStr "U1") world_old_name
    = (inl (OtherException "connection reset"), asked world_old_name (AStr "U1"))
  ∧ names_cache (asked world_old_name (AStr "U1")) !! AStr "U1"
    = Some (AStr "Alice", 1600000000).
Proof. repeat split; reflexivity. Qed.


Lemma failed_lookup_refreshes_witness :
  let w' := stored (asked world_start (AStr "U404")) (AStr "U404") (AStr "(no user)") in
  get_display_name slack_down (AStr "U404") world_start = (inr (AStr "(no user)"), w')
  ∧ names_cache w' !! AStr "U404" = Some (AStr "(no user)", 1700036000)
  ∧ lookups (trace w') = 1%nat
  ∧ (clock w' (ticks w') ≤ 1700036000 + NAME_CACHE_SECONDS →
     (get_display_name slack_down (AStr "U404") w').1 = inr (AStr "(no user)")
     ∧ lookups (trace (get_display_name slack_down (AStr "U404") w').2)
       = lookups (trace w')).
Proof.
  apply (failed_lookup_refreshes slack_down (AStr "U404") world_start); reflexivity.
Defined.

Lemma every_call_rewrites_cache_witness :
  names_cache world_resolved !! AStr "U1" = Some (AStr "Alice", 1700036000)
  ∧ ∃ wn stamp,
      resolve_repeatedly slack_up (AStr "U1") 3 world_resolved = Some wn
      ∧ lookups (trace wn) = lookups (trace world_resolved)
      ∧ names_cache wn !! AStr "U1" = Some (AStr "Alice", stamp).
Proof.
  destruct (every_call_rewrites_cache slack_up (AStr "U1") world_start (AStr "Alice")
              world_resolved eq_refl) as [Hentry Hchain].
  split; [exact Hentry|].
  apply (Hchain 3%nat). intros i Hi.
  unfold world_start, NAME_CACHE_SECONDS. cbn [clock ticks]. lia.
Defined.

Lemma stale_name_discarded_witness :
  ∃ w',
    get_display_name slack_down (AStr "U1") world_old_name
    = (inr (AStr "(no user)"), w')
    ∧ names_cache w' !! AStr "U1" = Some (AStr "(no user)", 1700036000)
    ∧ lookups (trace w') = 1%nat.
Proof.
  apply (stale_name_discarded slack_down (AStr "U1") world_old_name (AStr "Alice")
           1600000000); [reflexivity | reflexivity | left; reflexivity].
Defined.

(** ** The further properties on the concrete installation *)

Lemma thread_and_subtype_dropped_witness :
  handle_message cfg_example thread_reply world_start = (inr tt, world_start).
Proof.
  apply (thread_and_subtype_dropped cfg_example thread_reply (Atom (AStr "message"))
           world_start eq_refl).
  right. by eexists.
Defined.

Lemma handle_message_missing_key_witness :
  handle_message cfg_example greeting world_start = (inl (KeyError "type"), world_start).
Proof.
  apply (proj1 (handle_message_missing_key cfg_example greeting world_start)).
  reflexivity.
Defined.

Lemma post_message_never_raises_witness :
  ∃ r w' (sent failed : nat),
    post_message cfg_example slack_flaky greeting world_start = (inr (Some r), w')
    ∧ posts (trace w') = (posts (trace world_start) + sent)%nat
    ∧ failures_logged (trace w') = (failures_logged (trace world_start) + failed)%nat
    ∧ slept (trace w') = slept (trace world_start) + Z.of_nat failed
    ∧ (failed ≤ sent ≤ failed + 1)%nat
    ∧ (1 ≤ sent ≤ attempts cfg_example)%nat
    ∧ names_cache w' = names_cache world_start ∧ ticks w' = ticks world_start.
Proof.
  apply (post_message_never_raises cfg_example slack_flaky greeting world_start).
  intros t ex. unfold slack_flaky. cbn [chat_postMessage].
  destruct (posts t <? 2)%nat; intros [= <-]. reflexivity.
Defined.

Lemma post_message_interrupted_witness :
  post_message cfg_example slack_interrupted greeting world_start
  = (inl KeyboardInterrupt, add_effect (Call (ChatPostMessage greeting)) world_start).
Proof.
  apply (post_message_interrupted cfg_example slack_interrupted greeting world_start
           KeyboardInterrupt); reflexivity.
Defined.

Lemma format_question_keys_witness :
  format_question slack_up (λ _, "{}") question_without_comment world_start
  = (inl (KeyError "comment"), world_start).
Proof.
  apply (proj1 (format_question_keys slack_up (λ _, "{}") question_without_comment
                  world_start eq_refl)).
  reflexivity.
Defined.

Lemma format_question_bad_score_witness :
  format_question slack_up (λ _, "{}") question_text_score world_start
  = (inl ValueError, world_resolved).
Proof.
  apply (proj1 (proj2 (proj2
    (format_question_bad_score slack_up (λ _, "{}") question_text_score
       (<["score" := AStr "1234"]> winning_user_example) (AStr "Alice")
       (Atom (AStr "Paris")) world_start world_resolved
       eq_refl ltac:(done) eq_refl eq_refl))) "1234").
  reflexivity.
Defined.

Lemma format_question_winner_not_mapping_witness :
  format_question slack_up (λ _, "{}") question_bare_winner world_start
  = (inl AttributeError, world_start).
Proof.
  apply (format_question_winner_not_mapping slack_up (λ _, "{}") question_bare_winner
           (AStr "U1") world_start); reflexivity.
Defined.

Lemma show_question_missing_key_witness :
  show_question cfg_example slack_up (λ _, "{}") question_without_comment world_start
  = (inl (KeyError "comment"), world_start).
Proof.
  apply (show_question_missing_key cfg_example slack_up (λ _, "{}")
           question_without_comment "comment" world_start); reflexivity.
Defined.

Lemma correct_answer_missing_ts_witness :
  correct_answer cfg_example slack_up greeting world_start
  = (inr tt, add_effect (Log (LogException (KeyError "ts"))) world_start).
Proof.
  apply (correct_answer_missing_ts cfg_example slack_up greeting world_start).
  reflexivity.
Defined.

Lemma correct_answer_never_raises_witness :
  ∃ w',
    correct_answer cfg_example slack_down admin_dm world_start = (inr tt, w')
    ∧ (reactions (trace w') ≤ reactions (trace world_start) + 1)%nat
    ∧ (∀ ch nm ts, Call (ReactionsAdd ch nm ts) ∈ trace w' →
                   Call (ReactionsAdd ch nm ts) ∈ trace world_start
                   ∨ ch = trivia_channel cfg_example)
    ∧ names_cache w' = names_cache world_start ∧ ticks w' = ticks world_start.
Proof.
  apply (correct_answer_never_raises cfg_example slack_down admin_dm world_start).
  intros t ch nm ts ex [= <-]. reflexivity.
Defined.

Lemma error_option_clash_witness :
  error cfg_clash slack_up admin_dm (Atom (AStr "Nope")) world_start
  = (inl TypeError,
     add_effect
       (Call (ReactionsAdd (Atom (AStr "D9")) (Atom (AStr "x"))
                (Atom (AStr "1700000000.000100"))))
       world_start).
Proof.
  apply (error_option_clash cfg_clash slack_up admin_dm (Atom (AStr "Nope"))
           (Atom (AStr "UADMIN")) (Atom (AStr "1700000000.000100")) (Atom (AStr "D9"))
           (Atom (AStr "ok")) world_start eq_refl eq_refl eq_refl).
  - left. by eexists.
  - reflexivity.
Defined.

Lemma get_display_name_other_entries_witness :
  names_cache (get_display_name slack_up (AStr "U2") world_old_name).2 !! AStr "U1"
  = Some (AStr "Alice", 1600000000).
Proof.
  rewrite (get_display_name_other_entries slack_up (AStr "U2") (AStr "U1")
             world_old_name); [reflexivity | discriminate].
Defined.

Lemma get_display_name_never_empty_witness :
  cache_truthy (get_display_name slack_down (AStr "U404") world_start).2
  ∧ ∀ name, (get_display_name slack_down (AStr "U404") world_start).1 = inr name →
            atom_truthy name = true ∧ name ≠ ANone ∧ name ≠ AStr "".
Proof.
  apply (get_display_name_never_empty slack_down (AStr "U404") world_start).
  intros uid name stamp H.
  change (names_cache world_start) with (∅ : gmap atom (atom * Z)) in H.
  rewrite lookup_empty in H. discriminate.
Defined.

Lemma preferred_name_witness :
  get_display_name slack_bob (AStr "U7") world_start
  = (inr (AStr "Bob"), stored (asked world_start (AStr "U7")) (AStr "U7") (AStr "Bob"))
  ∧ get_display_name slack_up (AStr "U1") world_start
    = (inr (AStr "Alice"),
       stored (asked world_start (AStr "U1")) (AStr "U1") (AStr "Alice")).
Proof.
  split.
  - apply (preferred_name slack_bob (AStr "U7") world_start
             (<["display_name_normalized" := AStr "Bob"]>
                {["real_name_normalized" := AStr "Robert"]}) "Bob");
      [reflexivity | reflexivity | discriminate | left; reflexivity].
  - apply (preferred_name slack_up (AStr "U1") world_start
             (<["display_name_normalized" := AStr ""]>
                {["real_name_normalized" := AStr "Alice"]}) "Alice");
      [reflexivity | reflexivity | discriminate |].
    right. split; [right; right|]; reflexivity.
Defined.

Lemma get_display_name_other_exception_witness :
  get_display_name slack_interrupted (AStr "U1") world_old_name
  = (inl (OtherException "connection reset"), asked world_old_name (AStr "U1"))
  ∧ names_cache (asked world_old_name (AStr "U1")) = names_cache world_old_name
  ∧ (clock world_old_name (ticks world_old_name)
     ≤ clock world_old_name (S (ticks world_old_name)) →
     stale (asked world_old_name (AStr "U1")) (AStr "U1")).
Proof.
  apply (get_display_name_other_exception slack_interrupted (AStr "U1") world_old_name
           (OtherException "connection reset")); reflexivity.
Defined.

Lemma get_display_name_unknown_witness :
  lookups (trace (get_display_name slack_up (AStr "U1") world_start).2) = 1%nat.
Proof.
  apply (proj1 (get_display_name_unknown slack_up (AStr "U1") world_start eq_refl)).
  reflexivity.
Defined.

Lemma show_question_posts_rendering_witness :
  ∃ message_args,
    show_question cfg_example slack_up (λ _, "{}") question_null_comment world_start
    = discard (post_message cfg_example slack_up message_args)
        (add_effect (Print question_null_comment) world_start)
    ∧ message_args !! "channel" = Some (Atom (AStr "C1"))
    ∧ message_args !! "text"
      = Some (Atom (AStr ("Answer: *Paris*" ++ newline ++ "(1998) *Geography* for *400*"
                          ++ newline ++ ">Capital of France?")))
    ∧ ∀ key v, bot cfg_example !! key = Some v → message_args !! key = Some v.
Proof.
  apply (proj2 (show_question_posts_rendering cfg_example slack_up (λ _, "{}")
                  question_null_comment _ world_start world_start eq_refl));
    reflexivity.
Defined.

Lemma show_message_options_witness :
  show_message cfg_self slack_up (Atom (AStr "hi")) world_start
  = (inl TypeError, world_start)
  ∧ ∃ message_args,
      show_message cfg_example slack_up (Atom (AStr "hi")) world_start
      = discard (post_message cfg_example slack_up message_args) world_start
      ∧ (∀ key v, bot cfg_example !! key = Some v → message_args !! key = Some v)
      ∧ (bot cfg_example !! "channel" = None →
         message_args !! "channel" = Some (trivia_channel cfg_example))
      ∧ (bot cfg_example !! "text" = None →
         message_args !! "text" = Some (Atom (AStr "hi")))
      ∧ (∀ key, key ≠ "channel" → key ≠ "text" →
                message_args !! key = bot cfg_example !! key).
Proof.
  split.
  - apply (proj1 (show_message_options cfg_self slack_up (Atom (AStr "hi")) world_start)).
    by eexists.
  - apply (proj2 (show_message_options cfg_example slack_up (Atom (AStr "hi"))
                    world_start)).
    reflexivity.
Defined.

Lemma pre_format_inj_witness : pre_format "42" = "```42```" ∧ "42" = "42".
Proof. split; [reflexivity|]. apply (pre_format_inj "42" "42"). reflexivity. Defined.


Lemma error_missing_key_witness :
  error cfg_example slack_up greeting (Atom (AStr "Nope")) world_start
  = (inl (KeyError "user"), world_start).
Proof.
  apply (proj1 (error_missing_key cfg_example slack_up greeting (Atom (AStr "Nope"))
                  world_start)).
  reflexivity.
Defined.
